(** * easylog: the trace-correlating zap decorators of [pkg/otel/trace.go]

    A shallow embedding of the correlating decorators ([stdLogger],
    [stdSugaredLogger]), of the caller recorder ([recordCaller]), of the
    message resolution helpers ([getMessage], [getMessageln]) and of the
    option machinery ([applyConfig]), together with the properties the
    design document states about them.

    Go strings are byte sequences and are modelled as [string]; Go's
    fixed-width integers are modelled as [Z] with the wrap-around written
    out where the source converts or adds. *)

From Stdlib Require Import String Ascii List ZArith NArith Bool Lia.
From Stdlib Require Import DecimalString.
From ExtLib Require Import Structures.Monad Structures.MonadState.
From ExtLib Require Import Data.Monads.StateMonad.
Import ListNotations.
Import MonadNotation.
Local Open Scope monad_scope.
Local Open Scope string_scope.
Local Open Scope Z_scope.

(** ** Byte-string helpers *)

(** [strconv.Itoa] and the [%d] verb: signed decimal text. *)
Definition Itoa (z : Z) : string := NilZero.string_of_int (Z.to_int z).

(** The slice expression [s[:len(s)-1]] on a string of at least one byte:
    every byte but the last.  ([slice_in_bounds] below shows that the one
    use in [getMessageln] is always within bounds, so that Go's panic on
    an empty operand never arises.) *)
Definition drop_last_byte (s : string) : string :=
  String.substring 0 (String.length s - 1) s.

Definition newline : string := String (ascii_of_nat 10) EmptyString.

(** ** Values of type [interface{}] that reach the formatting helpers *)

Inductive Value : Type :=
| VString (s : string)
| VInt (n : Z)
| VBool (b : bool).

Module Fmt.

(** The part of Go's [fmt] package the helpers call.  Operands are
    [Value]s; the verbs modelled are [%v], [%d], [%s], [%t] and [%%],
    without flags, width or precision.  A verb that does not fit its
    operand prints Go's bad-verb text, a verb without operand prints
    [%!verb(MISSING)] and unused operands are listed under [%!(EXTRA].
    Templates with other verbs, flags, width or precision are outside
    this model. *)

Definition typeName (v : Value) : string :=
  match v with
  | VString _ => "string"
  | VInt _ => "int"
  | VBool _ => "bool"
  end.

(** [printArg(arg, 'v')] *)
Definition formatV (v : Value) : string :=
  match v with
  | VString s => s
  | VInt n => Itoa n
  | VBool true => "true"
  | VBool false => "false"
  end.

Definition isString (v : Value) : bool :=
  match v with VString _ => true | _ => false end.

Definition badVerb (verb : ascii) (v : Value) : string :=
  "%!" ++ String verb (("(" ++ typeName v) ++ "=" ++ formatV v ++ ")").

(** [printArg(arg, verb)] *)
Definition printArg (v : Value) (verb : ascii) : string :=
  match verb, v with
  | "v"%char, _ => formatV v
  | "d"%char, VInt n => Itoa n
  | "s"%char, VString s => s
  | "t"%char, VBool _ => formatV v
  | _, _ => badVerb verb v
  end.

(** [doPrintln]: a space between any two operands, then a newline. *)
Fixpoint doPrintln (first : bool) (a : list Value) : string :=
  match a with
  | [] => newline
  | v :: rest =>
      (if first then "" else " ") ++ formatV v ++ doPrintln false rest
  end.

Definition Sprintln (a : list Value) : string := doPrintln true a.

(** [doPrint]: a space between two operands when neither is a string. *)
Fixpoint doPrint (argNum0 prevString : bool) (a : list Value) : string :=
  match a with
  | [] => ""
  | v :: rest =>
      (if negb argNum0 && negb (isString v) && negb prevString
       then " " else "")
        ++ formatV v ++ doPrint false (isString v) rest
  end.

Definition Sprint (a : list Value) : string := doPrint true false a.

Fixpoint extraArgs (first : bool) (a : list Value) : string :=
  match a with
  | [] => ""
  | v :: rest =>
      (if first then "" else ", ")
        ++ typeName v ++ "=" ++ formatV v ++ extraArgs false rest
  end.

(** [doPrintf]: [inVerb] tells that the previous byte was a [%]. *)
Fixpoint doPrintf (format : string) (inVerb : bool) (a : list Value)
  : string :=
  match format with
  | EmptyString =>
      (if inVerb then "%!(NOVERB)" else "")
        ++ match a with
           | [] => ""
           | _ => "%!(EXTRA " ++ extraArgs true a ++ ")"
           end
  | String c rest =>
      if inVerb then
        if Ascii.eqb c "%" then "%" ++ doPrintf rest false a
        else
          match a with
          | [] => ("%!" ++ String c "(MISSING)") ++ doPrintf rest false a
          | v :: a' => printArg v c ++ doPrintf rest false a'
          end
      else if Ascii.eqb c "%" then doPrintf rest true a
      else String c (doPrintf rest false a)
  end.

Definition Sprintf (format : string) (a : list Value) : string :=
  doPrintf format false a.

End Fmt.

(** ** Message resolution of the sugared decorator *)

(** [getMessage] ("copy from zap"). *)
Definition getMessage (template : string) (fmtArgs : list Value) : string :=
  if (length fmtArgs =? 0)%nat then template
  else if negb (String.eqb template "") then Fmt.Sprintf template fmtArgs
  else
    match fmtArgs with
    | [VString str] => str
    | _ => Fmt.Sprint fmtArgs
    end.

(** [getMessageln] ("copy from zap"): [msg[:len(msg)-1]]. *)
Definition getMessageln (fmtArgs : list Value) : string :=
  let msg := Fmt.Sprintln fmtArgs in
  drop_last_byte msg.

(** ** Severities: [zapcore.Level], an [int8] *)

Definition Level := Z.

Definition DebugLevel : Level := -1.
Definition InfoLevel : Level := 0.
Definition WarnLevel : Level := 1.
Definition ErrorLevel : Level := 2.
Definition DPanicLevel : Level := 3.
Definition PanicLevel : Level := 4.
Definition FatalLevel : Level := 5.

(** [Level.String] *)
Definition Level_String (l : Level) : string :=
  if l =? DebugLevel then "debug"
  else if l =? InfoLevel then "info"
  else if l =? WarnLevel then "warn"
  else if l =? ErrorLevel then "error"
  else if l =? DPanicLevel then "dpanic"
  else if l =? PanicLevel then "panic"
  else if l =? FatalLevel then "fatal"
  else Fmt.Sprintf "Level(%d)" [VInt l].

(** ** Span attributes: [attribute.KeyValue] *)

Inductive AttrValue : Type :=
| AString (s : string)
| AInt (n : Z).

Record KeyValue : Type := mkKV { Key : string; Val : AttrValue }.

Definition Key_String (k : string) (v : string) : KeyValue := mkKV k (AString v).
Definition Key_Int (k : string) (v : Z) : KeyValue := mkKV k (AInt v).

Definition defaultTraceIdKey : string := "trace_id".
Definition defaultSpanIdKey : string := "span_id".
Definition defaultSampledKey : string := "sampled".

Definition logSeverityKey : string := "log.severity".
Definition logMessageKey : string := "log.message".

(** semconv v1.12.0 *)
Definition CodeFunctionKey : string := "code.function".
Definition CodeFilepathKey : string := "code.filepath".
Definition CodeLineNumberKey : string := "code.lineno".
Definition ExceptionStacktraceKey : string := "exception.stacktrace".

(** ** The Go runtime's view of the call stack *)

Record Frame : Type := mkFrame { Function : string; File : string; Line : Z }.

Definition zeroFrame : Frame := mkFrame "" "" 0.

Definition uintptr := N.

(** What the runtime knows when [recordCaller] asks: the return program
    counters of the goroutine's stack, innermost first (entry 0 is the
    frame of [runtime.Callers] itself, entry 1 that of its caller), and
    the symbol table that resolves a program counter to a frame. *)
Record Runtime : Type := mkRuntime {
  rt_stack : list uintptr;
  rt_findfunc : uintptr -> option Frame
}.

Module runtime.

(** The zero program counter never resolves. *)
Definition symbolize (rt : Runtime) (pc : uintptr) : option Frame :=
  if (pc =? 0)%N then None else rt_findfunc rt pc.

(** [runtime.Callers(skip, pc)]: writes the program counters found from
    [skip] on into [pc], as many as fit; returns how many it wrote and
    leaves the rest of [pc] as it was. *)
Definition Callers (rt : Runtime) (skip : Z) (pc : list uintptr)
  : nat * list uintptr :=
  let found := firstn (length pc) (skipn (Z.to_nat skip) (rt_stack rt)) in
  (length found, (found ++ skipn (length found) pc)%list).

(** [runtime.Frames]: the counters not yet looked at and the frames
    already resolved but not yet returned. *)
Record Frames : Type := mkFrames {
  callers : list uintptr;
  frames : list Frame
}.

Definition CallersFrames (pc : list uintptr) : Frames := mkFrames pc [].

(** The loop at the head of [Frames.Next]: resolve counters until two
    frames are at hand ("so we know what to return for the more
    result") or no counter is left; a counter that does not resolve is
    passed over. *)
Fixpoint lookahead (rt : Runtime) (cs : list uintptr) (fs : list Frame)
  : list uintptr * list Frame :=
  if (2 <=? length fs)%nat then (cs, fs)
  else
    match cs with
    | [] => ([], fs)
    | pc :: cs' =>
        match symbolize rt pc with
        | None => lookahead rt cs' fs
        | Some f => lookahead rt cs' (fs ++ [f])%list
        end
    end.

(** [Frames.Next]: "The more result indicates whether the next call to
    Next will return a valid Frame.  It does not necessarily indicate
    whether this call returned one."  Each counter written by
    [runtime.Callers] stands for one frame. *)
Definition Next (rt : Runtime) (ci : Frames) : (Frame * bool) * Frames :=
  let '(cs, fs) := lookahead rt (callers ci) (frames ci) in
  match fs with
  | [] => ((zeroFrame, false), mkFrames cs [])
  | f :: fs' => ((f, negb (Nat.eqb (length fs') 0)), mkFrames cs fs')
  end.

End runtime.

(** ** The caller recorder *)

(** One line of stack text, as the six [WriteString] calls build it. *)
Definition stack_line (f : Frame) : string :=
  Function f ++ " " ++ File f ++ ":" ++ Itoa (Line f) ++ newline.

(** The [for i := 0; i < cc; i++] loop of [recordCaller]; [n] is [cc - i].
    Returns the attributes and the stack text built so far. *)
Fixpoint walk (rt : Runtime) (stack : bool) (n : nat) (i : nat)
  (fr : runtime.Frames) (attrs : list KeyValue) (stackStr : string)
  : list KeyValue * string :=
  match n with
  | O => (attrs, stackStr)
  | S n' =>
      let '((next, more), fr') := runtime.Next rt fr in
      if negb more then (attrs, stackStr)
      else
        let attrs1 :=
          if (i =? 0)%nat then
            (attrs ++ [Key_String CodeFunctionKey (Function next)]
                   ++ [Key_String CodeFilepathKey (File next)]
                   ++ [Key_Int CodeLineNumberKey (Line next)])%list
          else attrs in
        let stackStr1 :=
          if stack then stackStr ++ stack_line next else stackStr in
        walk rt stack n' (S i) fr' attrs1 stackStr1
  end.

(** [recordCaller(attrs, callerDepth, skip)]; [callerDepth] is an [int8]. *)
Definition recordCaller (rt : Runtime) (attrs : list KeyValue)
  (callerDepth : Z) (skip : Z) : list KeyValue :=
  if callerDepth >=? 0 then
    let '(stack, pc0) :=
      if callerDepth =? 0 then (false, repeat 0%N 1)
      else (true, repeat 0%N (Z.to_nat callerDepth)) in
    let '(cc, pc) := runtime.Callers rt (skip + 1) pc0 in
    let fr := runtime.CallersFrames pc in
    let '(attrs1, stackStr) := walk rt stack cc 0 fr attrs "" in
    if stack then (attrs1 ++ [Key_String ExceptionStacktraceKey stackStr])%list
    else attrs1
  else attrs.

(** ** Trace correlation config and its options *)

(** Conversions to the fixed-width types of the [config] fields. *)
Definition int8 (z : Z) : Z := (z + 128) mod 256 - 128.
Definition uint8 (z : Z) : Z := z mod 256.

Record config : Type := mkConfig {
  LogTraceId : bool;
  LogSpanId : bool;
  LogSampled : bool;
  LogLevel : Level;
  ErrorStatusLevel : Level;
  CallerDepth : Z;   (* int8 *)
  CallerSkip : Z     (* uint8 *)
}.

(** [optionFunc], the one implementation of the [Option] interface. *)
Definition optionFunc := config -> config.
Definition Option := optionFunc.
Definition apply (o : Option) (c : config) : config := o c.

Definition WithLogTraceId (enabled : bool) : Option :=
  fun cfg => mkConfig enabled (LogSpanId cfg) (LogSampled cfg) (LogLevel cfg)
               (ErrorStatusLevel cfg) (CallerDepth cfg) (CallerSkip cfg).

Definition WithLogSpanId (enabled : bool) : Option :=
  fun cfg => mkConfig (LogTraceId cfg) enabled (LogSampled cfg) (LogLevel cfg)
               (ErrorStatusLevel cfg) (CallerDepth cfg) (CallerSkip cfg).

Definition WithLogSampled (enabled : bool) : Option :=
  fun cfg => mkConfig (LogTraceId cfg) (LogSpanId cfg) enabled (LogLevel cfg)
               (ErrorStatusLevel cfg) (CallerDepth cfg) (CallerSkip cfg).

Definition WithLogLevel (logLevel : Level) : Option :=
  fun cfg => mkConfig (LogTraceId cfg) (LogSpanId cfg) (LogSampled cfg) logLevel
               (ErrorStatusLevel cfg) (CallerDepth cfg) (CallerSkip cfg).

Definition WithErrorStatusLevel (errorStatusLevel : Level) : Option :=
  fun cfg => mkConfig (LogTraceId cfg) (LogSpanId cfg) (LogSampled cfg)
               (LogLevel cfg) errorStatusLevel (CallerDepth cfg) (CallerSkip cfg).

Definition WithCallerDepth (depth : Z) : Option :=
  fun cfg => mkConfig (LogTraceId cfg) (LogSpanId cfg) (LogSampled cfg)
               (LogLevel cfg) (ErrorStatusLevel cfg) (int8 depth) (CallerSkip cfg).

Definition WithCallerSkip (skip : Z) : Option :=
  if skip >? 0 then
    fun cfg => mkConfig (LogTraceId cfg) (LogSpanId cfg) (LogSampled cfg)
                 (LogLevel cfg) (ErrorStatusLevel cfg) (CallerDepth cfg)
                 (uint8 skip)
  else fun c => c.

(** [applyConfig(opts...)] *)
Definition applyConfig (opts : list Option) : config :=
  let cfg := mkConfig true false false ErrorLevel ErrorLevel 8 0 in
  fold_left (fun cfg opt => apply opt cfg) opts cfg.

(** ** The wrapped engine: [*zap.Logger] and [*zap.SugaredLogger] *)

Record Field : Type := mkField { fKey : string; fVal : Value }.

Definition zap_String (key val : string) : Field := mkField key (VString val).

(** What this package can observe and change of a zap logger: the fields
    its core carries and its caller skip. *)
Record ZapLogger : Type := mkZap {
  zl_fields : list Field;
  zl_callerSkip : Z
}.

Inductive ZapOption : Type :=
| zap_Fields (fs : list Field)
| zap_AddCallerSkip (skip : Z).

Definition ZapOption_apply (o : ZapOption) (l : ZapLogger) : ZapLogger :=
  match o with
  | zap_Fields fs => mkZap (zl_fields l ++ fs)%list (zl_callerSkip l)
  | zap_AddCallerSkip n => mkZap (zl_fields l) (zl_callerSkip l + n)
  end.

(** [Logger.WithOptions]: a clone with the options applied in order. *)
Definition Logger_WithOptions (l : ZapLogger) (opts : list ZapOption)
  : ZapLogger :=
  fold_left (fun l o => ZapOption_apply o l) opts l.

Record ZapSugared : Type := mkSugar { base : ZapLogger }.

Definition SugaredLogger_WithOptions (s : ZapSugared) (opts : list ZapOption)
  : ZapSugared :=
  mkSugar (Logger_WithOptions (base s) opts).

(** ** OpenTelemetry: span contexts, spans and execution contexts *)

Definition hex_digit (d : N) : ascii :=
  nth (N.to_nat d) (list_ascii_of_string "0123456789abcdef") "0"%char.

(** The low [digits] hexadecimal digits of [n], most significant first. *)
Fixpoint hex_fixed (digits : nat) (n : N) (acc : string) : string :=
  match digits with
  | O => acc
  | S d => hex_fixed d (n / 16)%N (String (hex_digit (n mod 16)%N) acc)
  end.

Record SpanContext : Type := mkSpanContext {
  traceID : N;     (* [16]byte *)
  spanID : N;      (* [8]byte *)
  traceFlags : N   (* byte *)
}.

Definition TraceID_String (sc : SpanContext) : string :=
  hex_fixed 32 (traceID sc) "".
Definition SpanID_String (sc : SpanContext) : string :=
  hex_fixed 16 (spanID sc) "".
Definition TraceFlags_String (sc : SpanContext) : string :=
  hex_fixed 2 (traceFlags sc) "".

(** [SpanContext.IsValid]: a non-zero trace id and a non-zero span id. *)
Definition IsValid (sc : SpanContext) : bool :=
  negb (traceID sc =? 0)%N && negb (spanID sc =? 0)%N.

Record Span : Type := mkSpan {
  span_SpanContext : SpanContext;
  span_IsRecording : bool
}.

Definition noopSpan : Span := mkSpan (mkSpanContext 0 0 0) false.

(** A non-nil [context.Context], reduced to the span stored in it. *)
Record Context : Type := mkContext { ctx_span : option Span }.

(** [trace.SpanFromContext]; [None] is the nil context. *)
Definition SpanFromContext (ctx : option Context) : Span :=
  match ctx with
  | None => noopSpan
  | Some c =>
      match ctx_span c with
      | Some span => span
      | None => noopSpan
      end
  end.

Definition SpanContextFromContext (ctx : option Context) : SpanContext :=
  span_SpanContext (SpanFromContext ctx).

Inductive Code : Type := codes_Unset | codes_Error | codes_Ok.

(** ** Observable behaviour of a log call

    A decorator call is run against recording collaborators: every call it
    makes to the span, to the wrapped zap logger, to the caller recorder
    and to the message helpers is appended, in program order, to a trace. *)

Inductive Method : Type := Debug | Info | Warn | Error | DPanic | Panic | Fatal.

Definition Method_level (m : Method) : Level :=
  match m with
  | Debug => DebugLevel
  | Info => InfoLevel
  | Warn => WarnLevel
  | Error => ErrorLevel
  | DPanic => DPanicLevel
  | Panic => PanicLevel
  | Fatal => FatalLevel
  end.

Inductive SpanCall : Type :=
| AddEvent (name : string) (attrs : list KeyValue)
| SetStatus (code : Code) (description : string).

Inductive SinkCall : Type :=
| Logger_Log (lvl : Level) (msg : string) (fields : list Field)
| Logger_leveled (m : Method) (msg : string) (fields : list Field)
| Sugared_print (m : Method) (args : list Value)
| Sugared_printf (m : Method) (template : string) (args : list Value)
| Sugared_printw (m : Method) (msg : string) (keysAndValues : list Value)
| Sugared_println (m : Method) (args : list Value).

Inductive Effect : Type :=
| EGetMessage (template : string) (fmtArgs : list Value)
| EGetMessageln (fmtArgs : list Value)
| ERecordCaller (callerDepth skip : Z)
| ESpan (c : SpanCall)
| ESink (l : ZapLogger) (c : SinkCall).

Definition Trace := list Effect.

Definition M := state Trace.

Definition emit (e : Effect) : M unit :=
  t <- get ;; put (t ++ [e])%list.

Definition run {A} (m : M A) (t : Trace) : A * Trace := runState m t.

(** The calls made on the span, and those made on the wrapped logger. *)
Fixpoint span_calls (t : Trace) : list SpanCall :=
  match t with
  | [] => []
  | ESpan c :: t' => c :: span_calls t'
  | _ :: t' => span_calls t'
  end.

Fixpoint sink_calls (t : Trace) : list (ZapLogger * SinkCall) :=
  match t with
  | [] => []
  | ESink l c :: t' => (l, c) :: sink_calls t'
  | _ :: t' => sink_calls t'
  end.

(** The calls that build a message or walk the stack. *)
Fixpoint work_calls (t : Trace) : list Effect :=
  match t with
  | [] => []
  | EGetMessage a b :: t' => EGetMessage a b :: work_calls t'
  | EGetMessageln a :: t' => EGetMessageln a :: work_calls t'
  | ERecordCaller d s :: t' => ERecordCaller d s :: work_calls t'
  | _ :: t' => work_calls t'
  end.

Definition span_AddEvent (name : string) (attrs : list KeyValue) : M unit :=
  emit (ESpan (AddEvent name attrs)).

Definition span_SetStatus (code : Code) (description : string) : M unit :=
  emit (ESpan (SetStatus code description)).

Definition sink (l : ZapLogger) (c : SinkCall) : M unit := emit (ESink l c).

Module stdLogger.
Record t : Type := mk {
  Logger : ZapLogger;
  ctx : option Context;
  LogLevel : Level;
  ErrorStatusLevel : Level;
  CallerDepth : Z;   (* int8 *)
  CallerSkip : Z     (* uint8 *)
}.
End stdLogger.

Module stdSugaredLogger.
Record t : Type := mk {
  SugaredLogger : ZapSugared;
  ctx : option Context;
  LogLevel : Level;
  ErrorStatusLevel : Level;
  CallerDepth : Z;   (* int8 *)
  CallerSkip : Z     (* uint8 *)
}.
End stdSugaredLogger.

Section Decorators.

Variable rt : Runtime.

Definition call_recordCaller (attrs : list KeyValue) (callerDepth skip : Z)
  : M (list KeyValue) :=
  emit (ERecordCaller callerDepth skip) ;;
  ret (recordCaller rt attrs callerDepth skip).

Definition call_getMessage (template : string) (fmtArgs : list Value)
  : M string :=
  emit (EGetMessage template fmtArgs) ;;
  ret (getMessage template fmtArgs).

Definition call_getMessageln (fmtArgs : list Value) : M string :=
  emit (EGetMessageln fmtArgs) ;;
  ret (getMessageln fmtArgs).

(** *** The structured decorator *)

Definition stdLogger_traceInfo (l : stdLogger.t) (lvl : Level) (msg : string)
  : M unit :=
  let span := SpanFromContext (stdLogger.ctx l) in
  if negb (span_IsRecording span) then ret tt
  else
    (if lvl >=? stdLogger.LogLevel l then
       let attrs := [] in
       let attrs := (attrs ++ [Key_String logSeverityKey (Level_String lvl)])%list in
       let attrs := (attrs ++ [Key_String logMessageKey msg])%list in
       attrs <- call_recordCaller attrs (stdLogger.CallerDepth l)
                  (uint8 (stdLogger.CallerSkip l + 3)) ;;
       span_AddEvent "log" attrs
     else ret tt) ;;
    (if lvl >=? stdLogger.ErrorStatusLevel l then
       span_SetStatus codes_Error msg
     else ret tt).

Definition stdLogger_Log (l : stdLogger.t) (lvl : Level) (msg : string)
  (fields : list Field) : M unit :=
  stdLogger_traceInfo l lvl msg ;;
  sink (stdLogger.Logger l) (Logger_Log lvl msg fields).

Definition stdLogger_Debug (l : stdLogger.t) (msg : string)
  (fields : list Field) : M unit :=
  stdLogger_traceInfo l DebugLevel msg ;;
  sink (stdLogger.Logger l) (Logger_leveled Debug msg fields).

Definition stdLogger_Info (l : stdLogger.t) (msg : string)
  (fields : list Field) : M unit :=
  stdLogger_traceInfo l InfoLevel msg ;;
  sink (stdLogger.Logger l) (Logger_leveled Info msg fields).

Definition stdLogger_Warn (l : stdLogger.t) (msg : string)
  (fields : list Field) : M unit :=
  stdLogger_traceInfo l WarnLevel msg ;;
  sink (stdLogger.Logger l) (Logger_leveled Warn msg fields).

Definition stdLogger_Error (l : stdLogger.t) (msg : string)
  (fields : list Field) : M unit :=
  stdLogger_traceInfo l ErrorLevel msg ;;
  sink (stdLogger.Logger l) (Logger_leveled Error msg fields).

Definition stdLogger_Panic (l : stdLogger.t) (msg : string)
  (fields : list Field) : M unit :=
  stdLogger_traceInfo l PanicLevel msg ;;
  sink (stdLogger.Logger l) (Logger_leveled Panic msg fields).

Definition stdLogger_Fatal (l : stdLogger.t) (msg : string)
  (fields : list Field) : M unit :=
  stdLogger_traceInfo l FatalLevel msg ;;
  sink (stdLogger.Logger l) (Logger_leveled Fatal msg fields).

Definition stdLogger_DPanic (l : stdLogger.t) (msg : string)
  (fields : list Field) : M unit :=
  stdLogger_traceInfo l DPanicLevel msg ;;
  sink (stdLogger.Logger l) (Logger_leveled DPanic msg fields).

(** A structured call: which method of the [izap.StdLogger] interface. *)
Inductive StdCall : Type :=
| CallLog (lvl : Level)
| CallLeveled (m : Method).

Definition StdCall_level (c : StdCall) : Level :=
  match c with
  | CallLog lvl => lvl
  | CallLeveled m => Method_level m
  end.

Definition stdLogger_call (l : stdLogger.t) (c : StdCall) (msg : string)
  (fields : list Field) : M unit :=
  match c with
  | CallLog lvl => stdLogger_Log l lvl msg fields
  | CallLeveled Debug => stdLogger_Debug l msg fields
  | CallLeveled Info => stdLogger_Info l msg fields
  | CallLeveled Warn => stdLogger_Warn l msg fields
  | CallLeveled Error => stdLogger_Error l msg fields
  | CallLeveled DPanic => stdLogger_DPanic l msg fields
  | CallLeveled Panic => stdLogger_Panic l msg fields
  | CallLeveled Fatal => stdLogger_Fatal l msg fields
  end.

(** The same call made on the wrapped logger directly. *)
Definition StdCall_forwarded (c : StdCall) (msg : string)
  (fields : list Field) : SinkCall :=
  match c with
  | CallLog lvl => Logger_Log lvl msg fields
  | CallLeveled m => Logger_leveled m msg fields
  end.

(** *** The sugared decorator *)

Definition stdSugaredLogger_sugaredTraceInfo (s : stdSugaredLogger.t)
  (lvl : Level) (msg : string) (ln : bool) (args : list Value) : M unit :=
  let span := SpanFromContext (stdSugaredLogger.ctx s) in
  if negb (span_IsRecording span) then ret tt
  else
    (* first return for reduce call format *)
    if (lvl <? stdSugaredLogger.LogLevel s)
       && (lvl <? stdSugaredLogger.ErrorStatusLevel s) then ret tt
    else
      msg <- (if ln then call_getMessageln args
              else call_getMessage msg args) ;;
      (if lvl >=? stdSugaredLogger.LogLevel s then
         let attrs := [] in
         let attrs := (attrs ++ [Key_String logSeverityKey (Level_String lvl)])%list in
         let attrs := (attrs ++ [Key_String logMessageKey msg])%list in
         attrs <- call_recordCaller attrs (stdSugaredLogger.CallerDepth s)
                    (uint8 (3 + stdSugaredLogger.CallerSkip s)) ;;
         span_AddEvent "log" attrs
       else ret tt) ;;
      (if lvl >=? stdSugaredLogger.ErrorStatusLevel s then
         span_SetStatus codes_Error msg
       else ret tt).

Definition stdSugaredLogger_Debug (s : stdSugaredLogger.t)
  (args : list Value) : M unit :=
  stdSugaredLogger_sugaredTraceInfo s DebugLevel "" false args ;;
  sink (base (stdSugaredLogger.SugaredLogger s)) (Sugared_print Debug args).

Definition stdSugaredLogger_Info (s : stdSugaredLogger.t)
  (args : list Value) : M unit :=
  stdSugaredLogger_sugaredTraceInfo s InfoLevel "" false args ;;
  sink (base (stdSugaredLogger.SugaredLogger s)) (Sugared_print Info args).

Definition stdSugaredLogger_Warn (s : stdSugaredLogger.t)
  (args : list Value) : M unit :=
  stdSugaredLogger_sugaredTraceInfo s WarnLevel "" false args ;;
  sink (base (stdSugaredLogger.SugaredLogger s)) (Sugared_print Warn args).

Definition stdSugaredLogger_Error (s : stdSugaredLogger.t)
  (args : list Value) : M unit :=
  stdSugaredLogger_sugaredTraceInfo s ErrorLevel "" false args ;;
  sink (base (stdSugaredLogger.SugaredLogger s)) (Sugared_print Error args).

Definition stdSugaredLogger_DPanic (s : stdSugaredLogger.t)
  (args : list Value) : M unit :=
  stdSugaredLogger_sugaredTraceInfo s DPanicLevel "" false args ;;
  sink (base (stdSugaredLogger.SugaredLogger s)) (Sugared_print DPanic args).

Definition stdSugaredLogger_Panic (s : stdSugaredLogger.t)
  (args : list Value) : M unit :=
  stdSugaredLogger_sugaredTraceInfo s PanicLevel "" false args ;;
  sink (base (stdSugaredLogger.SugaredLogger s)) (Sugared_print Panic args).

Definition stdSugaredLogger_Fatal (s : stdSugaredLogger.t)
  (args : list Value) : M unit :=
  stdSugaredLogger_sugaredTraceInfo s FatalLevel "" false args ;;
  sink (base (stdSugaredLogger.SugaredLogger s)) (Sugared_print Fatal args).

Definition stdSugaredLogger_Debugf (s : stdSugaredLogger.t)
  (template : string) (args : list Value) : M unit :=
  stdSugaredLogger_sugaredTraceInfo s DebugLevel template false args ;;
  sink (base (stdSugaredLogger.SugaredLogger s))
    (Sugared_printf Debug template args).

Definition stdSugaredLogger_Infof (s : stdSugaredLogger.t)
  (template : string) (args : list Value) : M unit :=
  stdSugaredLogger_sugaredTraceInfo s InfoLevel template false args ;;
  sink (base (stdSugaredLogger.SugaredLogger s))
    (Sugared_printf Info template args).

Definition stdSugaredLogger_Warnf (s : stdSugaredLogger.t)
  (template : string) (args : list Value) : M unit :=
  stdSugaredLogger_sugaredTraceInfo s WarnLevel template false args ;;
  sink (base (stdSugaredLogger.SugaredLogger s))
    (Sugared_printf Warn template args).

Definition stdSugaredLogger_Errorf (s : stdSugaredLogger.t)
  (template : string) (args : list Value) : M unit :=
  stdSugaredLogger_sugaredTraceInfo s ErrorLevel template false args ;;
  sink (base (stdSugaredLogger.SugaredLogger s))
    (Sugared_printf Error template args).

Definition stdSugaredLogger_DPanicf (s : stdSugaredLogger.t)
  (template : string) (args : list Value) : M unit :=
  stdSugaredLogger_sugaredTraceInfo s DPanicLevel template false args ;;
  sink (base (stdSugaredLogger.SugaredLogger s))
    (Sugared_printf DPanic template args).

Definition stdSugaredLogger_Panicf (s : stdSugaredLogger.t)
  (template : string) (args : list Value) : M unit :=
  stdSugaredLogger_sugaredTraceInfo s PanicLevel template false args ;;
  sink (base (stdSugaredLogger.SugaredLogger s))
    (Sugared_printf Panic template args).

Definition stdSugaredLogger_Fatalf (s : stdSugaredLogger.t)
  (template : string) (args : list Value) : M unit :=
  stdSugaredLogger_sugaredTraceInfo s FatalLevel template false args ;;
  sink (base (stdSugaredLogger.SugaredLogger s))
    (Sugared_printf Fatal template args).

Definition stdSugaredLogger_Debugw (s : stdSugaredLogger.t)
  (msg : string) (keysAndValues : list Value) : M unit :=
  stdSugaredLogger_sugaredTraceInfo s DebugLevel msg false [] ;;
  sink (base (stdSugaredLogger.SugaredLogger s))
    (Sugared_printw Debug msg keysAndValues).

Definition stdSugaredLogger_Infow (s : stdSugaredLogger.t)
  (msg : string) (keysAndValues : list Value) : M unit :=
  stdSugaredLogger_sugaredTraceInfo s InfoLevel msg false [] ;;
  sink (base (stdSugaredLogger.SugaredLogger s))
    (Sugared_printw Info msg keysAndValues).

Definition stdSugaredLogger_Warnw (s : stdSugaredLogger.t)
  (msg : string) (keysAndValues : list Value) : M unit :=
  stdSugaredLogger_sugaredTraceInfo s WarnLevel msg false [] ;;
  sink (base (stdSugaredLogger.SugaredLogger s))
    (Sugared_printw Warn msg keysAndValues).

Definition stdSugaredLogger_Errorw (s : stdSugaredLogger.t)
  (msg : string) (keysAndValues : list Value) : M unit :=
  stdSugaredLogger_sugaredTraceInfo s ErrorLevel msg false [] ;;
  sink (base (stdSugaredLogger.SugaredLogger s))
    (Sugared_printw Error msg keysAndValues).

Definition stdSugaredLogger_DPanicw (s : stdSugaredLogger.t)
  (msg : string) (keysAndValues : list Value) : M unit :=
  stdSugaredLogger_sugaredTraceInfo s DPanicLevel msg false [] ;;
  sink (base (stdSugaredLogger.SugaredLogger s))
    (Sugared_printw DPanic msg keysAndValues).

Definition stdSugaredLogger_Panicw (s : stdSugaredLogger.t)
  (msg : string) (keysAndValues : list Value) : M unit :=
  stdSugaredLogger_sugaredTraceInfo s PanicLevel msg false [] ;;
  sink (base (stdSugaredLogger.SugaredLogger s))
    (Sugared_printw Panic msg keysAndValues).

Definition stdSugaredLogger_Fatalw (s : stdSugaredLogger.t)
  (msg : string) (keysAndValues : list Value) : M unit :=
  stdSugaredLogger_sugaredTraceInfo s FatalLevel msg false [] ;;
  sink (base (stdSugaredLogger.SugaredLogger s))
    (Sugared_printw Fatal msg keysAndValues).

Definition stdSugaredLogger_Debugln (s : stdSugaredLogger.t)
  (args : list Value) : M unit :=
  stdSugaredLogger_sugaredTraceInfo s DebugLevel "" true args ;;
  sink (base (stdSugaredLogger.SugaredLogger s)) (Sugared_println Debug args).

Definition stdSugaredLogger_Infoln (s : stdSugaredLogger.t)
  (args : list Value) : M unit :=
  stdSugaredLogger_sugaredTraceInfo s InfoLevel "" true args ;;
  sink (base (stdSugaredLogger.SugaredLogger s)) (Sugared_println Info args).

Definition stdSugaredLogger_Warnln (s : stdSugaredLogger.t)
  (args : list Value) : M unit :=
  stdSugaredLogger_sugaredTraceInfo s WarnLevel "" true args ;;
  sink (base (stdSugaredLogger.SugaredLogger s)) (Sugared_println Warn args).

Definition stdSugaredLogger_Errorln (s : stdSugaredLogger.t)
  (args : list Value) : M unit :=
  stdSugaredLogger_sugaredTraceInfo s ErrorLevel "" true args ;;
  sink (base (stdSugaredLogger.SugaredLogger s)) (Sugared_println Error args).

Definition stdSugaredLogger_DPanicln (s : stdSugaredLogger.t)
  (args : list Value) : M unit :=
  stdSugaredLogger_sugaredTraceInfo s DPanicLevel "" true args ;;
  sink (base (stdSugaredLogger.SugaredLogger s)) (Sugared_println DPanic args).

Definition stdSugaredLogger_Panicln (s : stdSugaredLogger.t)
  (args : list Value) : M unit :=
  stdSugaredLogger_sugaredTraceInfo s PanicLevel "" true args ;;
  sink (base (stdSugaredLogger.SugaredLogger s)) (Sugared_println Panic args).

Definition stdSugaredLogger_Fatalln (s : stdSugaredLogger.t)
  (args : list Value) : M unit :=
  stdSugaredLogger_sugaredTraceInfo s FatalLevel "" true args ;;
  sink (base (stdSugaredLogger.SugaredLogger s)) (Sugared_println Fatal args).

(** A sugared call: one of the four call shapes of the
    [izap.StdSugaredLogger] interface with its arguments. *)
Inductive SugaredCall : Type :=
| CallPrint (m : Method) (args : list Value)
| CallPrintf (m : Method) (template : string) (args : list Value)
| CallPrintw (m : Method) (msg : string) (keysAndValues : list Value)
| CallPrintln (m : Method) (args : list Value).

Definition SugaredCall_level (c : SugaredCall) : Level :=
  match c with
  | CallPrint m _ | CallPrintf m _ _ | CallPrintw m _ _ | CallPrintln m _ =>
      Method_level m
  end.

Definition stdSugaredLogger_call (s : stdSugaredLogger.t) (c : SugaredCall)
  : M unit :=
  match c with
  | CallPrint Debug args => stdSugaredLogger_Debug s args
  | CallPrint Info args => stdSugaredLogger_Info s args
  | CallPrint Warn args => stdSugaredLogger_Warn s args
  | CallPrint Error args => stdSugaredLogger_Error s args
  | CallPrint DPanic args => stdSugaredLogger_DPanic s args
  | CallPrint Panic args => stdSugaredLogger_Panic s args
  | CallPrint Fatal args => stdSugaredLogger_Fatal s args
  | CallPrintf Debug template args => stdSugaredLogger_Debugf s template args
  | CallPrintf Info template args => stdSugaredLogger_Infof s template args
  | CallPrintf Warn template args => stdSugaredLogger_Warnf s template args
  | CallPrintf Error template args => stdSugaredLogger_Errorf s template args
  | CallPrintf DPanic template args => stdSugaredLogger_DPanicf s template args
  | CallPrintf Panic template args => stdSugaredLogger_Panicf s template args
  | CallPrintf Fatal template args => stdSugaredLogger_Fatalf s template args
  | CallPrintw Debug msg kvs => stdSugaredLogger_Debugw s msg kvs
  | CallPrintw Info msg kvs => stdSugaredLogger_Infow s msg kvs
  | CallPrintw Warn msg kvs => stdSugaredLogger_Warnw s msg kvs
  | CallPrintw Error msg kvs => stdSugaredLogger_Errorw s msg kvs
  | CallPrintw DPanic msg kvs => stdSugaredLogger_DPanicw s msg kvs
  | CallPrintw Panic msg kvs => stdSugaredLogger_Panicw s msg kvs
  | CallPrintw Fatal msg kvs => stdSugaredLogger_Fatalw s msg kvs
  | CallPrintln Debug args => stdSugaredLogger_Debugln s args
  | CallPrintln Info args => stdSugaredLogger_Infoln s args
  | CallPrintln Warn args => stdSugaredLogger_Warnln s args
  | CallPrintln Error args => stdSugaredLogger_Errorln s args
  | CallPrintln DPanic args => stdSugaredLogger_DPanicln s args
  | CallPrintln Panic args => stdSugaredLogger_Panicln s args
  | CallPrintln Fatal args => stdSugaredLogger_Fatalln s args
  end.

(** The same call made on the wrapped sugared logger directly. *)
Definition SugaredCall_forwarded (c : SugaredCall) : SinkCall :=
  match c with
  | CallPrint m args => Sugared_print m args
  | CallPrintf m template args => Sugared_printf m template args
  | CallPrintw m msg kvs => Sugared_printw m msg kvs
  | CallPrintln m args => Sugared_println m args
  end.

End Decorators.

(** ** Construction of the decorators *)

(** The dynamic type behind an [izap.StdLogger] value returned by
    [WithContext]: the zap logger itself, or a decorator around it. *)
Inductive StdLogger : Type :=
| StdLogger_zap (l : ZapLogger)
| StdLogger_std (l : stdLogger.t).

Inductive StdSugaredLogger : Type :=
| StdSugaredLogger_zap (s : ZapSugared)
| StdSugaredLogger_std (s : stdSugaredLogger.t).

Definition WithContext (ctx : option Context) (zLogger : ZapLogger)
  (opts : list Option) : StdLogger :=
  match ctx with
  | None => StdLogger_zap zLogger
  | Some _ =>
      let spanContext := SpanContextFromContext ctx in
      if negb (IsValid spanContext) then StdLogger_zap zLogger
      else
        let cfg := applyConfig opts in
        let fields := [] in
        let fields :=
          if LogTraceId cfg then
            (fields ++ [zap_String defaultTraceIdKey
                          (TraceID_String spanContext)])%list
          else fields in
        let fields :=
          if LogSpanId cfg then
            (fields ++ [zap_String defaultSpanIdKey
                          (SpanID_String spanContext)])%list
          else fields in
        let fields :=
          if LogSampled cfg then
            (fields ++ [zap_String defaultSampledKey
                          (TraceFlags_String spanContext)])%list
          else fields in
        StdLogger_std
          (stdLogger.mk
             (Logger_WithOptions zLogger
                [zap_Fields fields; zap_AddCallerSkip 1])
             ctx (LogLevel cfg) (ErrorStatusLevel cfg)
             (CallerDepth cfg) (CallerSkip cfg))
  end.

Definition SugarWithContext (ctx : option Context) (zsLogger : ZapSugared)
  (opts : list Option) : StdSugaredLogger :=
  match ctx with
  | None => StdSugaredLogger_zap zsLogger
  | Some _ =>
      let spanContext := SpanContextFromContext ctx in
      if negb (IsValid spanContext) then StdSugaredLogger_zap zsLogger
      else
        let cfg := applyConfig opts in
        let fields := [] in
        let fields :=
          if LogTraceId cfg then
            (fields ++ [zap_String defaultTraceIdKey
                          (TraceID_String spanContext)])%list
          else fields in
        let fields :=
          if LogSpanId cfg then
            (fields ++ [zap_String defaultSpanIdKey
                          (SpanID_String spanContext)])%list
          else fields in
        let fields :=
          if LogSampled cfg then
            (fields ++ [zap_String defaultSampledKey
                          (TraceFlags_String spanContext)])%list
          else fields in
        StdSugaredLogger_std
          (stdSugaredLogger.mk
             (SugaredLogger_WithOptions zsLogger
                [zap_Fields fields; zap_AddCallerSkip 1])
             ctx (LogLevel cfg) (ErrorStatusLevel cfg)
             (CallerDepth cfg) (CallerSkip cfg))
  end.

(** ** Reading aids for the statements below *)

(** The frames a buffer of program counters resolves to. *)
Definition resolve_all (rt : Runtime) (pcs : list uintptr) : list Frame :=
  flat_map (fun pc => match runtime.symbolize rt pc with
                      | Some f => [f]
                      | None => []
                      end) pcs.

(** The frames above the skip point that fit a buffer of [n] counters. *)
Definition captured (rt : Runtime) (skip : Z) (n : nat) : list Frame :=
  resolve_all rt (firstn n (skipn (Z.to_nat (skip + 1)) (rt_stack rt))).

(** The function/file/line attributes of the first of a list of frames. *)
Definition caller_triple (fs : list Frame) : list KeyValue :=
  match fs with
  | [] => []
  | f :: _ => [Key_String CodeFunctionKey (Function f);
               Key_String CodeFilepathKey (File f);
               Key_Int CodeLineNumberKey (Line f)]
  end.

Definition stack_text (fs : list Frame) : string :=
  fold_right String.append "" (map stack_line fs).

(** What each sugared call shape hands to [sugaredTraceInfo] as
    [msg], [ln] and [args]. *)
Definition SugaredCall_msg (c : SugaredCall) : string :=
  match c with
  | CallPrint _ _ => ""
  | CallPrintf _ template _ => template
  | CallPrintw _ msg _ => msg
  | CallPrintln _ _ => ""
  end.

Definition SugaredCall_ln (c : SugaredCall) : bool :=
  match c with
  | CallPrintln _ _ => true
  | _ => false
  end.

Definition SugaredCall_args (c : SugaredCall) : list Value :=
  match c with
  | CallPrint _ args => args
  | CallPrintf _ _ args => args
  | CallPrintw _ _ _ => []
  | CallPrintln _ args => args
  end.

(** The calls one pass of the correlation routine makes once the message
    [msg] is at hand: the mirrored event, built from the caller recorder,
    when [lvl] reaches [logLevel], then the error status when [lvl]
    reaches [errorStatusLevel]. *)
Definition mirror_attrs (rt : Runtime) (callerDepth skip : Z) (lvl : Level)
  (msg : string) : list KeyValue :=
  recordCaller rt
    [Key_String logSeverityKey (Level_String lvl);
     Key_String logMessageKey msg] callerDepth skip.

Definition mirror_trace (rt : Runtime) (logLevel errorStatusLevel : Level)
  (callerDepth skip : Z) (lvl : Level) (msg : string) : Trace :=
  ((if lvl >=? logLevel then
      [ERecordCaller callerDepth skip;
       ESpan (AddEvent "log" (mirror_attrs rt callerDepth skip lvl msg))]
    else []) ++
   (if lvl >=? errorStatusLevel then [ESpan (SetStatus codes_Error msg)]
    else []))%list.

(** A goroutine that logs an error from [main.handler], called from
    [main.main]. *)
Definition demo_frames : list (uintptr * Frame) :=
  [ (10, mkFrame "runtime.Callers" "/go/src/runtime/extern.go" 325);
    (20, mkFrame "github.com/logerror/easylog/pkg/otel.recordCaller" "trace.go" 113);
    (30, mkFrame "github.com/logerror/easylog/pkg/otel.(*stdLogger).traceInfo" "trace.go" 93);
    (40, mkFrame "github.com/logerror/easylog/pkg/otel.(*stdLogger).Error" "trace.go" 64);
    (50, mkFrame "main.handler" "/app/main.go" 42);
    (60, mkFrame "main.main" "/app/main.go" 17);
    (70, mkFrame "runtime.main" "/go/src/runtime/proc.go" 250);
    (80, mkFrame "runtime.goexit" "/go/src/runtime/asm_amd64.s" 1594) ]%N.

Fixpoint assoc_frame (tbl : list (uintptr * Frame)) (pc : uintptr)
  : option Frame :=
  match tbl with
  | [] => None
  | (p, f) :: tbl' => if (p =? pc)%N then Some f else assoc_frame tbl' pc
  end.

Definition demo_rt : Runtime :=
  mkRuntime (map fst demo_frames) (assoc_frame demo_frames).

Definition demo_span : Span := mkSpan (mkSpanContext 255 16 1) true.
Definition demo_ctx : option Context := Some (mkContext (Some demo_span)).
Definition demo_zap : ZapLogger := mkZap [zap_String "service" "api"] 0.

Definition demo_std : stdLogger.t :=
  stdLogger.mk demo_zap demo_ctx WarnLevel ErrorLevel 8 0.
Definition demo_sugared : stdSugaredLogger.t :=
  stdSugaredLogger.mk (mkSugar demo_zap) demo_ctx WarnLevel ErrorLevel 8 0.

Definition frame_handler : Frame := mkFrame "main.handler" "/app/main.go" 42.
Definition frame_main : Frame := mkFrame "main.main" "/app/main.go" 17.
Definition frame_rtmain : Frame :=
  mkFrame "runtime.main" "/go/src/runtime/proc.go" 250.
Definition frame_goexit : Frame :=
  mkFrame "runtime.goexit" "/go/src/runtime/asm_amd64.s" 1594.

(** ** The configured loggers of [pkg/otel]: [logger] and [sugaredLogger] *)

(** What zap does to a logger in the calls this package makes besides
    [WithOptions]: [Logger.With] adds fields to the core, [Logger.Sugar]
    wraps a clone that skips two more callers and [SugaredLogger.Desugar]
    unwraps a clone that skips two fewer. *)
Definition Logger_With (l : ZapLogger) (fields : list Field) : ZapLogger :=
  mkZap (zl_fields l ++ fields)%list (zl_callerSkip l).

Definition Logger_Sugar (l : ZapLogger) : ZapSugared :=
  mkSugar (mkZap (zl_fields l) (zl_callerSkip l + 2)).

Definition SugaredLogger_Desugar (s : ZapSugared) : ZapLogger :=
  mkZap (zl_fields (base s)) (zl_callerSkip (base s) - 2).

Module logger.
Record t : Type := mk {
  Logger : ZapLogger;
  cfg : config
}.
End logger.

Module sugaredLogger.
Record t : Type := mk {
  SugaredLogger : ZapSugared;
  cfg : config
}.
End sugaredLogger.

Definition NewLogger (log : ZapLogger) (opts : list Option) : logger.t :=
  let cfg := applyConfig opts in
  logger.mk log cfg.

Definition NewSugaredLogger (log : ZapSugared) (opts : list Option)
  : sugaredLogger.t :=
  let cfg := applyConfig opts in
  sugaredLogger.mk log cfg.

(** The dynamic type behind the [izap.StdLogger] that [logger.WithContext]
    returns: the configured logger itself, or a decorator. *)
Inductive LoggerStd : Type :=
| LoggerStd_logger (l : logger.t)
| LoggerStd_std (l : stdLogger.t).

Inductive SugaredStd : Type :=
| SugaredStd_sugaredLogger (o : sugaredLogger.t)
| SugaredStd_std (s : stdSugaredLogger.t).

(** [(l *logger) WithContext(ctx)]; there is no test for a nil context
    here, [trace.SpanContextFromContext] copes with it. *)
Definition logger_WithContext (l : logger.t) (ctx : option Context)
  : LoggerStd :=
  let spanContext := SpanContextFromContext ctx in
  if negb (IsValid spanContext) then LoggerStd_logger l
  else
    let fields := [] in
    let fields :=
      if LogTraceId (logger.cfg l) then
        (fields ++ [zap_String defaultTraceIdKey
                      (TraceID_String spanContext)])%list
      else fields in
    let fields :=
      if LogSpanId (logger.cfg l) then
        (fields ++ [zap_String defaultSpanIdKey
                      (SpanID_String spanContext)])%list
      else fields in
    let fields :=
      if LogSampled (logger.cfg l) then
        (fields ++ [zap_String defaultSampledKey
                      (TraceFlags_String spanContext)])%list
      else fields in
    LoggerStd_std
      (stdLogger.mk
         (Logger_WithOptions (logger.Logger l)
            [zap_Fields fields; zap_AddCallerSkip 1])
         ctx (LogLevel (logger.cfg l)) (ErrorStatusLevel (logger.cfg l))
         (CallerDepth (logger.cfg l)) (CallerSkip (logger.cfg l))).

Definition logger_With (l : logger.t) (fields : list Field) : logger.t :=
  let newL := Logger_With (logger.Logger l) fields in
  logger.mk newL (logger.cfg l).

Definition logger_WithOptions (l : logger.t) (opts : list ZapOption)
  : logger.t :=
  let newL := Logger_WithOptions (logger.Logger l) opts in
  logger.mk newL (logger.cfg l).

Definition logger_Sugar (l : logger.t) : sugaredLogger.t :=
  let sl := Logger_Sugar (logger.Logger l) in
  sugaredLogger.mk sl (logger.cfg l).

(** [(o *sugaredLogger) WithContext(ctx)] *)
Definition sugaredLogger_WithContext (o : sugaredLogger.t)
  (ctx : option Context) : SugaredStd :=
  let spanContext := SpanContextFromContext ctx in
  if negb (IsValid spanContext) then SugaredStd_sugaredLogger o
  else
    let fields := [] in
    let fields :=
      if LogTraceId (sugaredLogger.cfg o) then
        (fields ++ [zap_String defaultTraceIdKey
                      (TraceID_String spanContext)])%list
      else fields in
    let fields :=
      if LogSpanId (sugaredLogger.cfg o) then
        (fields ++ [zap_String defaultSpanIdKey
                      (SpanID_String spanContext)])%list
      else fields in
    let fields :=
      if LogSampled (sugaredLogger.cfg o) then
        (fields ++ [zap_String defaultSampledKey
                      (TraceFlags_String spanContext)])%list
      else fields in
    SugaredStd_std
      (stdSugaredLogger.mk
         (SugaredLogger_WithOptions (sugaredLogger.SugaredLogger o)
            [zap_Fields fields; zap_AddCallerSkip 1])
         ctx (LogLevel (sugaredLogger.cfg o))
         (ErrorStatusLevel (sugaredLogger.cfg o))
         (CallerDepth (sugaredLogger.cfg o))
         (CallerSkip (sugaredLogger.cfg o))).

Definition sugaredLogger_WithOptions (o : sugaredLogger.t)
  (opts : list ZapOption) : sugaredLogger.t :=
  let sl := SugaredLogger_WithOptions (sugaredLogger.SugaredLogger o) opts in
  sugaredLogger.mk sl (sugaredLogger.cfg o).

Definition sugaredLogger_Desugar (o : sugaredLogger.t) : logger.t :=
  let l := SugaredLogger_Desugar (sugaredLogger.SugaredLogger o) in
  logger.mk l (sugaredLogger.cfg o).

(** The options of [pkg/otel] by the field they set. *)
Inductive Setter : Type :=
| SetLogTraceId (enabled : bool)
| SetLogSpanId (enabled : bool)
| SetLogSampled (enabled : bool)
| SetLogLevel (logLevel : Level)
| SetErrorStatusLevel (errorStatusLevel : Level)
| SetCallerDepth (depth : Z)
| SetCallerSkip (skip : Z).

Definition Setter_option (s : Setter) : Option :=
  match s with
  | SetLogTraceId b => WithLogTraceId b
  | SetLogSpanId b => WithLogSpanId b
  | SetLogSampled b => WithLogSampled b
  | SetLogLevel l => WithLogLevel l
  | SetErrorStatusLevel l => WithErrorStatusLevel l
  | SetCallerDepth d => WithCallerDepth d
  | SetCallerSkip k => WithCallerSkip k
  end.

Definition Setter_field (s : Setter) : nat :=
  match s with
  | SetLogTraceId _ => 0
  | SetLogSpanId _ => 1
  | SetLogSampled _ => 2
  | SetLogLevel _ => 3
  | SetErrorStatusLevel _ => 4
  | SetCallerDepth _ => 5
  | SetCallerSkip _ => 6
  end%nat.

(** ** The facade: [pkg/option] and package [easylog] *)

Module pkg_option.

(** The package-level variables of [pkg/option]. *)
Record Globals : Type := mkGlobals {
  LogFilePath : string;
  LogFileSizeMB : Z;
  Compress : bool;
  MaxBackups : Z;
  MaxAge : Z;
  LogLevel : string;
  ConsoleRequired : bool;
  CallerSkip : Z
}.

(** Their initial values. *)
Definition initial : Globals := mkGlobals "" 6 false 0 0 "info" true 2.

(** The four implementations of the [Option] interface, as the structs
    they are.  ([WithLogLevel] builds a [logLevelOption] from the
    lower-cased level; [strings.ToLower] is not modelled, so the option is
    taken as built.) *)
Inductive Option : Type :=
| logFileOption (oLogFilePath : string) (oLogFileSizeMB : Z)
    (oCompress : bool) (oMaxBackups oMaxAge : Z)
| logLevelOption (oLogLevel : string)
| logConsoleOption (oRequired : bool)
| logCallerSkipOption (oCallerSkip : Z).

Definition WithLogFilePath (logFilePath : string) : Option :=
  logFileOption logFilePath 0 false 0 0.

Definition WithLogFile (logFilePath : string)
  (logFileSizeMB maxBackups maxAge : Z) (compress : bool) : Option :=
  logFileOption logFilePath logFileSizeMB compress maxBackups maxAge.

Definition WithConsole (required : bool) : Option :=
  logConsoleOption required.

Definition WithCallerSkip (callerSkip : Z) : Option :=
  logCallerSkipOption callerSkip.

(** The [Apply] methods, as transformers of the package variables. *)
Definition Apply (o : Option) (g : Globals) : Globals :=
  match o with
  | logFileOption path size compress maxBackups maxAge =>
      if negb (String.eqb path "") then
        mkGlobals path (if size =? 0 then 100 else size) compress maxBackups
          maxAge (LogLevel g) (ConsoleRequired g) (CallerSkip g)
      else g
  | logLevelOption level =>
      if negb (String.eqb level "") then
        mkGlobals (LogFilePath g) (LogFileSizeMB g) (Compress g)
          (MaxBackups g) (MaxAge g) level (ConsoleRequired g) (CallerSkip g)
      else g
  | logConsoleOption required =>
      mkGlobals (LogFilePath g) (LogFileSizeMB g) (Compress g)
        (MaxBackups g) (MaxAge g) (LogLevel g) required (CallerSkip g)
  | logCallerSkipOption callerSkip =>
      mkGlobals (LogFilePath g) (LogFileSizeMB g) (Compress g)
        (MaxBackups g) (MaxAge g) (LogLevel g) (ConsoleRequired g) callerSkip
  end.

(** [LevelMapping]: a map literal with six distinct keys. *)
Definition LevelMapping : list (string * Level) :=
  [ (Level_String DebugLevel, DebugLevel);
    (Level_String InfoLevel, InfoLevel);
    (Level_String WarnLevel, WarnLevel);
    (Level_String ErrorLevel, ErrorLevel);
    (Level_String PanicLevel, PanicLevel);
    (Level_String FatalLevel, FatalLevel) ].

End pkg_option.

Module easylog.

(** The map index expression [m[key]] with the comma-ok form. *)
Fixpoint map_lookup (m : list (string * Level)) (key : string)
  : option Level :=
  match m with
  | [] => None
  | (k, v) :: m' => if String.eqb k key then Some v else map_lookup m' key
  end.

Definition ParseLevel (level : string) : Level :=
  match map_lookup pkg_option.LevelMapping level with
  | Some lvl => lvl
  | None => InfoLevel   (* default level: info *)
  end.

(** Where a core writes: standard output, or a rotating file. *)
Inductive Syncer : Type :=
| consoleSyncer
| fileSyncer (Filename : string) (MaxSize MaxBackups MaxAge : Z)
    (Compress : bool).

(** The core [initLogger] hands to [zap.New]: its write syncers and the
    level it enables. *)
Record Core : Type := mkCore {
  core_syncers : list Syncer;
  core_level : Level
}.

(** The facade's [logger] struct.  [core] stands for the core inside
    [logger]; a nil [otelLogger] or [otelSugaredLogger] is [None].  The
    [atomicLevel] field is never assigned and is left out. *)
Record logger : Type := mkLogger {
  level : string;
  core : Core;
  zlogger : ZapLogger;
  sugaredLogger : ZapSugared;
  otelLogger : option logger.t;
  otelSugaredLogger : option sugaredLogger.t
}.

(** [initLogger(options...)]: applies the options to the package
    variables and builds the logger from them; returns the logger and the
    package variables it leaves behind. *)
Definition initLogger (options : list pkg_option.Option)
  (g : pkg_option.Globals) : logger * pkg_option.Globals :=
  let g := fold_left (fun g o => pkg_option.Apply o g) options g in
  let consoleOnly := [consoleSyncer] in
  let multiWriteSyncer :=
    if negb (String.eqb (pkg_option.LogFilePath g) "")
       && negb (pkg_option.LogFileSizeMB g =? 0) then
      let lumberjackLogger :=
        fileSyncer (pkg_option.LogFilePath g) (pkg_option.LogFileSizeMB g)
          (pkg_option.MaxBackups g) (pkg_option.MaxAge g)
          (pkg_option.Compress g) in
      if pkg_option.ConsoleRequired g then [consoleSyncer; lumberjackLogger]
      else [lumberjackLogger]
    else consoleOnly in
  let core := mkCore multiWriteSyncer (ParseLevel (pkg_option.LogLevel g)) in
  let l_logger := Logger_WithOptions (mkZap [] 0) [zap_AddCallerSkip 1] in
  let l_sugaredLogger := Logger_Sugar l_logger in
  (mkLogger "" core l_logger l_sugaredLogger
     (Some (NewLogger l_logger []))
     (Some (NewSugaredLogger l_sugaredLogger [])),
   g).

(** [(l *logger) With(fields...)] *)
Definition logger_With (l : logger) (fields : list Field) : logger :=
  let lg := Logger_With (zlogger l) fields in
  mkLogger (level l) (core l) lg (Logger_Sugar lg)
    (Some (NewLogger lg []))
    (Some (NewSugaredLogger (Logger_Sugar lg) [])).

(** [(l *logger) Clone()]: the two correlating loggers are not copied. *)
Definition logger_Clone (l : logger) : logger :=
  mkLogger (level l) (core l) (zlogger l) (sugaredLogger l) None None.

(** [(l *logger) WithContext(ctx)]: a method call on the [otelLogger]
    interface value; on a nil interface Go panics, hence [None]. *)
Definition logger_WithContext (l : logger) (ctx : option Context)
  : option LoggerStd :=
  match otelLogger l with
  | Some o => Some (logger_WithContext o ctx)
  | None => None
  end.

Definition logger_Level (l : logger) : string := level l.

Definition logger_IsDebug (l : logger) : bool :=
  String.eqb (level l) (Level_String DebugLevel).

End easylog.

Definition demo_idle_ctx : option Context :=
  Some (mkContext (Some (mkSpan (mkSpanContext 255 16 0) false))).
Definition demo_idle_std : stdLogger.t :=
  stdLogger.mk demo_zap demo_idle_ctx DebugLevel DebugLevel 8 0.
Definition demo_idle_sugared : stdSugaredLogger.t :=
  stdSugaredLogger.mk (mkSugar demo_zap) demo_idle_ctx DebugLevel DebugLevel
    8 0.

(** * Properties *)

(** ** Byte strings *)

Lemma append_nil_r (s : string) : s ++ "" = s.
Proof. induction s as [|c s IH]; simpl; [reflexivity | now rewrite IH]. Qed.

Lemma append_assoc (s1 s2 s3 : string) : (s1 ++ s2) ++ s3 = s1 ++ (s2 ++ s3).
Proof. induction s1 as [|c s1 IH]; simpl; [reflexivity | now rewrite IH]. Qed.

Lemma drop_last_byte_append (s : string) (c : ascii) :
  drop_last_byte (s ++ String c "") = s.
Proof.
  unfold drop_last_byte.
  induction s as [|d s IH]; [reflexivity|].
  simpl String.length. simpl Nat.sub. simpl append.
  destruct (String.length (s ++ String c "")) eqn:E.
  - destruct s; discriminate.
  - simpl. f_equal. simpl in IH. now rewrite Nat.sub_0_r in IH.
Qed.

(** ** The runtime model *)

Lemma lookahead_eq rt cs fs :
  runtime.lookahead rt cs fs =
  if (2 <=? length fs)%nat then (cs, fs)
  else
    match cs with
    | [] => ([], fs)
    | pc :: cs' =>
        match runtime.symbolize rt pc with
        | None => runtime.lookahead rt cs' fs
        | Some f => runtime.lookahead rt cs' (fs ++ [f])%list
        end
    end.
Proof. destruct cs; reflexivity. Qed.

Lemma lookahead_spec rt cs : forall fs cs' fs',
  runtime.lookahead rt cs fs = (cs', fs') ->
  (fs' ++ resolve_all rt cs' = fs ++ resolve_all rt cs)%list /\
  (cs' = [] \/ (2 <= length fs')%nat).
Proof.
  induction cs as [|pc cs IH]; intros fs cs' fs' H;
    rewrite lookahead_eq in H;
    destruct (2 <=? length fs)%nat eqn:E.
  - inversion H; subst. split; [reflexivity | right; now apply Nat.leb_le].
  - inversion H; subst. split; [reflexivity | now left].
  - inversion H; subst. split; [reflexivity | right; now apply Nat.leb_le].
  - unfold resolve_all at 2. simpl flat_map. fold (resolve_all rt cs).
    destruct (runtime.symbolize rt pc) as [f|].
    + apply IH in H. destruct H as [H1 H2]. split; [|exact H2].
      rewrite H1. now rewrite <- app_assoc.
    + apply IH in H. exact H.
Qed.

(** [Frames.Next] hands out the resolved frames one by one, and [more]
    tells whether another one is left after the one returned. *)
Lemma Next_spec rt fr :
  let R := (runtime.frames fr ++ resolve_all rt (runtime.callers fr))%list in
  let '((f, more), fr') := runtime.Next rt fr in
  f = hd zeroFrame R /\
  more = negb (Nat.eqb (length (tl R)) 0) /\
  (runtime.frames fr' ++ resolve_all rt (runtime.callers fr') = tl R)%list.
Proof.
  unfold runtime.Next.
  destruct (runtime.lookahead rt (runtime.callers fr) (runtime.frames fr))
    as [cs fs] eqn:E.
  apply lookahead_spec in E. destruct E as [E1 E2].
  cbv zeta. rewrite <- E1.
  destruct fs as [|f fs'].
  - destruct E2 as [->|E2]; [|simpl in E2; lia].
    simpl. auto.
  - simpl. split; [reflexivity|]. split; [|reflexivity].
    destruct E2 as [->|E2].
    + simpl. now rewrite app_nil_r.
    + destruct fs' as [|g fs'']; [simpl in E2; lia|]. reflexivity.
Qed.

(** ** The caller recorder *)

(** The loop handles every resolved frame of the buffer but the last one:
    it leaves as soon as [more] is false, before looking at the frame that
    came with it. *)
Lemma walk_spec rt stack n : forall i fr attrs stackStr,
  let R := (runtime.frames fr ++ resolve_all rt (runtime.callers fr))%list in
  let P := firstn n (removelast R) in
  walk rt stack n i fr attrs stackStr =
  ((attrs ++ (if (i =? 0)%nat then caller_triple P else []))%list,
   stackStr ++ (if stack then stack_text P else "")).
Proof.
  induction n as [|n IH]; intros i fr attrs stackStr R P.
  - subst P. simpl firstn. simpl caller_triple.
    replace (if (i =? 0)%nat then [] else []) with (@nil KeyValue)
      by now destruct (i =? 0)%nat.
    rewrite app_nil_r.
    replace (if stack then stack_text [] else "") with ""
      by now destruct stack.
    now rewrite append_nil_r.
  - simpl walk. pose proof (Next_spec rt fr) as HN. cbv zeta in HN.
    fold R in HN.
    destruct (runtime.Next rt fr) as [[next more] fr'].
    destruct HN as (Hf & Hm & Hrest).
    destruct R as [|f R'] eqn:ER.
    + subst more. simpl. subst P. simpl.
      replace (if (i =? 0)%nat then [] else []) with (@nil KeyValue)
        by now destruct (i =? 0)%nat.
      rewrite app_nil_r. destruct stack; now rewrite append_nil_r.
    + simpl in Hf, Hm, Hrest. subst next.
      destruct R' as [|g R''].
      * subst more. simpl. subst P. simpl.
        replace (if (i =? 0)%nat then [] else []) with (@nil KeyValue)
          by now destruct (i =? 0)%nat.
        rewrite app_nil_r. destruct stack; now rewrite append_nil_r.
      * subst more. simpl negb. cbv iota.
        rewrite IH. rewrite Hrest. subst P.
        change (removelast (f :: g :: R'')) with (f :: removelast (g :: R'')).
        simpl firstn. simpl Nat.eqb.
        set (Q := firstn n (removelast (g :: R''))).
        destruct (i =? 0)%nat; destruct stack; simpl caller_triple;
          unfold stack_text; simpl map; simpl fold_right;
          rewrite ?append_assoc, ?append_nil_r, ?app_nil_r, <- ?app_assoc;
          reflexivity.
Qed.

Lemma resolve_all_app rt a b :
  resolve_all rt (a ++ b)%list = (resolve_all rt a ++ resolve_all rt b)%list.
Proof. unfold resolve_all. apply flat_map_app. Qed.

Lemma resolve_all_zeros rt l :
  Forall (fun pc => pc = 0%N) l -> resolve_all rt l = [].
Proof.
  induction 1 as [|pc l Hpc _ IH]; [reflexivity|].
  subst pc. unfold resolve_all in *. simpl. exact IH.
Qed.

Lemma resolve_all_length rt l : (length (resolve_all rt l) <= length l)%nat.
Proof.
  induction l as [|pc l IH]; [apply Nat.le_refl|].
  unfold resolve_all in *. simpl.
  destruct (runtime.symbolize rt pc); simpl; lia.
Qed.

Lemma removelast_length_le {A} (l : list A) :
  (length (removelast l) <= length l)%nat.
Proof.
  induction l as [|x l IH]; [apply Nat.le_refl|].
  destruct l; simpl in *; lia.
Qed.

Lemma zeros_skipn n k : Forall (fun pc => pc = 0%N) (skipn k (repeat 0%N n)).
Proof.
  apply Forall_forall. intros x Hx.
  apply (repeat_spec n 0%N x).
  revert Hx. generalize (repeat 0%N n). intros l.
  revert l. induction k as [|k IH]; intros l Hx; [exact Hx|].
  destruct l; [destruct Hx|]. right. now apply IH.
Qed.

(** What the buffer of [n] zeroed counters yields after [runtime.Callers]
    filled it and the loop walked it. *)
Lemma walk_buffer rt stack skip n attrs :
  let '(cc, pc) := runtime.Callers rt (skip + 1) (repeat 0%N n) in
  walk rt stack cc 0 (runtime.CallersFrames pc) attrs "" =
  let P := removelast (captured rt skip n) in
  ((attrs ++ caller_triple P)%list, if stack then stack_text P else "").
Proof.
  unfold runtime.Callers. rewrite repeat_length.
  set (found := firstn n (skipn (Z.to_nat (skip + 1)) (rt_stack rt))).
  rewrite walk_spec. cbv zeta. unfold runtime.CallersFrames. simpl.
  rewrite resolve_all_app.
  rewrite (resolve_all_zeros rt (skipn _ _)) by apply zeros_skipn.
  rewrite app_nil_r. fold (captured rt skip n).
  rewrite firstn_all2; [reflexivity|].
  etransitivity; [apply removelast_length_le|].
  apply resolve_all_length.
Qed.

(** The whole of [recordCaller] in closed form. *)
Lemma recordCaller_spec rt attrs callerDepth skip :
  recordCaller rt attrs callerDepth skip =
  if callerDepth >=? 0 then
    let n := if callerDepth =? 0 then 1%nat else Z.to_nat callerDepth in
    let P := removelast (captured rt skip n) in
    (attrs ++ caller_triple P ++
       (if callerDepth =? 0 then []
        else [Key_String ExceptionStacktraceKey (stack_text P)]))%list
  else attrs.
Proof.
  unfold recordCaller.
  destruct (callerDepth >=? 0); [|reflexivity].
  destruct (callerDepth =? 0).
  - pose proof (walk_buffer rt false skip 1 attrs) as H.
    cbv beta iota zeta.
    destruct (runtime.Callers rt (skip + 1) (repeat 0%N 1)) as [cc pc].
    rewrite H. cbv beta iota zeta. now rewrite app_nil_r.
  - pose proof (walk_buffer rt true skip (Z.to_nat callerDepth) attrs) as H.
    cbv beta iota zeta.
    destruct (runtime.Callers rt (skip + 1) _) as [cc pc].
    rewrite H. cbv beta iota zeta. now rewrite <- app_assoc.
Qed.

(** With a buffer of one counter the only frame is also the last one. *)
Lemma captured_one rt skip : removelast (captured rt skip 1) = [].
Proof.
  unfold captured.
  destruct (skipn (Z.to_nat (skip + 1)) (rt_stack rt)) as [|pc rest];
    [reflexivity|].
  simpl firstn. unfold resolve_all. simpl.
  now destruct (runtime.symbolize rt pc).
Qed.

(** [callerDepth = 0]: the attributes come back as they went in, whatever
    the stack and the skip. *)
Lemma recordCaller_depth0 rt attrs skip :
  recordCaller rt attrs 0 skip = attrs.
Proof.
  rewrite recordCaller_spec. simpl. rewrite captured_one. simpl.
  apply app_nil_r.
Qed.

(** ** The correlation routines *)

Lemma run_then_sink (m : M unit) (l : ZapLogger) (c : SinkCall) (t0 : Trace) :
  run (m ;; sink l c) t0 = (tt, (snd (run m t0) ++ [ESink l c])%list).
Proof. unfold run. cbn. now destruct (runState m t0). Qed.

Lemma traceInfo_run rt l lvl msg t0 :
  run (stdLogger_traceInfo rt l lvl msg) t0 =
  (tt,
   (t0 ++
    if span_IsRecording (SpanFromContext (stdLogger.ctx l)) then
      mirror_trace rt (stdLogger.LogLevel l) (stdLogger.ErrorStatusLevel l)
        (stdLogger.CallerDepth l) (uint8 (stdLogger.CallerSkip l + 3)) lvl msg
    else [])%list).
Proof.
  unfold stdLogger_traceInfo, mirror_trace, mirror_attrs, run.
  destruct (span_IsRecording _); cbn; [|now rewrite app_nil_r].
  destruct (lvl >=? stdLogger.LogLevel l);
    destruct (lvl >=? stdLogger.ErrorStatusLevel l); cbn;
    rewrite <- ?app_assoc, ?app_nil_r; reflexivity.
Qed.

Lemma sugaredTraceInfo_run rt s lvl msg ln args t0 :
  run (stdSugaredLogger_sugaredTraceInfo rt s lvl msg ln args) t0 =
  (tt,
   (t0 ++
    if span_IsRecording (SpanFromContext (stdSugaredLogger.ctx s)) then
      if (lvl <? stdSugaredLogger.LogLevel s)
         && (lvl <? stdSugaredLogger.ErrorStatusLevel s) then []
      else
        (if ln then EGetMessageln args else EGetMessage msg args) ::
        mirror_trace rt (stdSugaredLogger.LogLevel s)
          (stdSugaredLogger.ErrorStatusLevel s)
          (stdSugaredLogger.CallerDepth s)
          (uint8 (3 + stdSugaredLogger.CallerSkip s)) lvl
          (if ln then getMessageln args else getMessage msg args)
    else [])%list).
Proof.
  unfold stdSugaredLogger_sugaredTraceInfo, mirror_trace, mirror_attrs, run.
  destruct (span_IsRecording _); cbn; [|now rewrite app_nil_r].
  destruct ((lvl <? stdSugaredLogger.LogLevel s)
            && (lvl <? stdSugaredLogger.ErrorStatusLevel s));
    cbn; [now rewrite app_nil_r|].
  destruct ln;
    destruct (lvl >=? stdSugaredLogger.LogLevel s);
    destruct (lvl >=? stdSugaredLogger.ErrorStatusLevel s); cbn;
    rewrite <- ?app_assoc, ?app_nil_r; reflexivity.
Qed.

Lemma span_calls_app a b :
  span_calls (a ++ b)%list = (span_calls a ++ span_calls b)%list.
Proof.
  induction a as [|e a IH]; [reflexivity|].
  destruct e; simpl; now rewrite IH.
Qed.

Lemma sink_calls_app a b :
  sink_calls (a ++ b)%list = (sink_calls a ++ sink_calls b)%list.
Proof.
  induction a as [|e a IH]; [reflexivity|].
  destruct e; simpl; now rewrite IH.
Qed.

Lemma mirror_trace_span_calls rt ll esl d k lvl msg :
  span_calls (mirror_trace rt ll esl d k lvl msg) =
  ((if lvl >=? ll then [AddEvent "log" (mirror_attrs rt d k lvl msg)] else []) ++
   (if lvl >=? esl then [SetStatus codes_Error msg] else []))%list.
Proof.
  unfold mirror_trace. destruct (lvl >=? ll); destruct (lvl >=? esl);
    reflexivity.
Qed.

Lemma mirror_trace_sink_calls rt ll esl d k lvl msg :
  sink_calls (mirror_trace rt ll esl d k lvl msg) = [].
Proof.
  unfold mirror_trace. destruct (lvl >=? ll); destruct (lvl >=? esl);
    reflexivity.
Qed.

(** Every method of the structured decorator is the correlation routine
    at the method's level followed by the same call on the wrapped logger. *)
Lemma stdLogger_call_run rt l c msg fields t0 :
  run (stdLogger_call rt l c msg fields) t0 =
  (tt,
   (t0 ++
    (if span_IsRecording (SpanFromContext (stdLogger.ctx l)) then
       mirror_trace rt (stdLogger.LogLevel l) (stdLogger.ErrorStatusLevel l)
         (stdLogger.CallerDepth l) (uint8 (stdLogger.CallerSkip l + 3))
         (StdCall_level c) msg
     else []) ++
    [ESink (stdLogger.Logger l) (StdCall_forwarded c msg fields)])%list).
Proof.
  destruct c as [lvl|[]]; unfold stdLogger_call;
    match goal with
    | |- run (?f _ _ _ _ _) _ = _ => unfold f
    | |- run (?f _ _ _ _) _ = _ => unfold f
    end;
    rewrite run_then_sink, traceInfo_run; simpl snd;
    now rewrite <- app_assoc.
Qed.

(** Every method of the sugared decorator is the correlation routine at
    the method's level, on the arguments its call shape selects, followed
    by the same call on the wrapped sugared logger. *)
Lemma stdSugaredLogger_call_run rt s c t0 :
  run (stdSugaredLogger_call rt s c) t0 =
  (tt,
   snd (run (stdSugaredLogger_sugaredTraceInfo rt s (SugaredCall_level c)
               (SugaredCall_msg c) (SugaredCall_ln c) (SugaredCall_args c))
          t0) ++
   [ESink (base (stdSugaredLogger.SugaredLogger s))
      (SugaredCall_forwarded c)])%list.
Proof.
  destruct c as [[] args|[] template args|[] msg kvs|[] args];
    unfold stdSugaredLogger_call;
    match goal with
    | |- run (?f _ _ _ _) _ = _ => unfold f
    | |- run (?f _ _ _) _ = _ => unfold f
    end;
    rewrite run_then_sink; reflexivity.
Qed.

Ltac break_hyps :=
  repeat match goal with
  | H : exists _, _ |- _ => destruct H
  | H : _ /\ _ |- _ => destruct H
  | H : In _ _ |- _ => simpl in H
  | H : _ \/ _ |- _ => destruct H as [H|H]; try discriminate H
  | H : False |- _ => contradiction
  | H : false = true |- _ => discriminate H
  end.

Ltac close_calls :=
  break_hyps;
  first
    [ reflexivity
    | lia
    | split; [lia | reflexivity]
    | eexists; simpl; now left
    | eexists; simpl; right; now left
    | do 2 eexists; simpl; now left
    | do 2 eexists; simpl; right; now left ].

(** C1. A structured log call at severity S on a correlating decorator
    adds one span event iff S >= LogLevel and the span is recording, sets
    the span status to error with the message iff S >= ErrorStatusLevel
    and the span is recording, and in every case makes the same call, with
    the same severity, message and fields, on the wrapped logger. *)
Theorem stdLogger_mirror_status_forward rt l c msg fields t0 :
  let S := StdCall_level c in
  let recording := span_IsRecording (SpanFromContext (stdLogger.ctx l)) in
  exists tr,
    run (stdLogger_call rt l c msg fields) t0 = (tt, (t0 ++ tr)%list) /\
    span_calls tr =
      ((if recording && (S >=? stdLogger.LogLevel l) then
          [AddEvent "log"
             (mirror_attrs rt (stdLogger.CallerDepth l)
                (uint8 (stdLogger.CallerSkip l + 3)) S msg)]
        else []) ++
       (if recording && (S >=? stdLogger.ErrorStatusLevel l) then
          [SetStatus codes_Error msg]
        else []))%list /\
    ((exists name attrs, In (AddEvent name attrs) (span_calls tr)) <->
     (stdLogger.LogLevel l <= S /\ recording = true)) /\
    ((exists code description,
        In (SetStatus code description) (span_calls tr)) <->
     (stdLogger.ErrorStatusLevel l <= S /\ recording = true)) /\
    sink_calls tr = [(stdLogger.Logger l, StdCall_forwarded c msg fields)].
Proof.
  intros S recording.
  eexists. split; [apply stdLogger_call_run|].
  fold S. fold recording.
  rewrite span_calls_app, sink_calls_app.
  destruct recording; simpl andb.
  - rewrite mirror_trace_span_calls, mirror_trace_sink_calls.
    destruct (Z.geb_spec S (stdLogger.LogLevel l));
      destruct (Z.geb_spec S (stdLogger.ErrorStatusLevel l));
      simpl; repeat split; intros; close_calls.
  - simpl. repeat split; intros; close_calls.
Qed.

(** C9. With a negative [callerDepth], [recordCaller] returns the
    attribute list it was given, for every attribute list, every skip and
    every state of the stack. *)
Theorem recordCaller_negative_depth rt attrs callerDepth skip :
  callerDepth < 0 ->
  recordCaller rt attrs callerDepth skip = attrs.
Proof.
  intros H. unfold recordCaller.
  destruct (Z.geb_spec callerDepth 0); [lia | reflexivity].
Qed.

Lemma recordCaller_negative_depth_witness :
  -1 < 0 /\
  recordCaller demo_rt [Key_String logMessageKey "disk full"] (-1) 3 =
  [Key_String logMessageKey "disk full"].
Proof.
  split; [lia|].
  apply (recordCaller_negative_depth demo_rt
           [Key_String logMessageKey "disk full"] (-1) 3).
  lia.
Defined.

(** C2, on the code.  A goroutine logs from [main.handler]; that frame is
    the one above the skip point and it resolves.  With [callerDepth = 0]
    the recorder nevertheless returns the empty attribute list it was
    given: the single captured frame comes with [more = false] and the
    loop leaves before recording it. *)
Theorem recordCaller_depth0_records_nothing :
  captured demo_rt 3 1 = [frame_handler] /\
  recordCaller demo_rt [] 0 3 = [].
Proof. split; reflexivity. Qed.

(** C3, on the code.  Four frames lie above the skip point, fewer than
    the eight asked for; the stack text holds the first three and the
    fourth, [runtime.goexit], is missing.  With [callerDepth = 2] two
    frames are captured and resolve, and only the first has a line. *)
Theorem recordCaller_depth8_drops_last_frame :
  captured demo_rt 3 8 =
    [frame_handler; frame_main; frame_rtmain; frame_goexit] /\
  recordCaller demo_rt [] 8 3 =
    (caller_triple [frame_handler] ++
     [Key_String ExceptionStacktraceKey
        (stack_text [frame_handler; frame_main; frame_rtmain])])%list /\
  captured demo_rt 3 2 = [frame_handler; frame_main] /\
  recordCaller demo_rt [] 2 3 =
    (caller_triple [frame_handler] ++
     [Key_String ExceptionStacktraceKey (stack_text [frame_handler])])%list.
Proof. repeat split; reflexivity. Qed.

(** With [callerDepth = 1] not even the caller is recorded: the attribute
    list gains an empty stack text and nothing else. *)
Example recordCaller_depth1_on_demo :
  recordCaller demo_rt [] 1 3 = [Key_String ExceptionStacktraceKey ""].
Proof. reflexivity. Qed.

(** ** Message resolution *)

Lemma getMessage_nil template : getMessage template [] = template.
Proof. reflexivity. Qed.

Lemma doPrintln_concat v rest :
  Fmt.formatV v ++ Fmt.doPrintln false rest =
  String.concat " " (map Fmt.formatV (v :: rest)) ++ newline.
Proof.
  revert v. induction rest as [|w rest IH]; intros v; [reflexivity|].
  simpl Fmt.doPrintln. rewrite IH.
  change (map Fmt.formatV (v :: w :: rest))
    with (Fmt.formatV v :: map Fmt.formatV (w :: rest)).
  change (String.concat " " (Fmt.formatV v :: map Fmt.formatV (w :: rest)))
    with (Fmt.formatV v ++ " " ++
            String.concat " " (map Fmt.formatV (w :: rest))).
  now rewrite !append_assoc.
Qed.

Lemma Sprintln_concat a :
  Fmt.Sprintln a = String.concat " " (map Fmt.formatV a) ++ newline.
Proof.
  destruct a as [|v rest]; [reflexivity|].
  unfold Fmt.Sprintln. simpl Fmt.doPrintln.
  change ("" ++ Fmt.formatV v ++ Fmt.doPrintln false rest)
    with (Fmt.formatV v ++ Fmt.doPrintln false rest).
  apply doPrintln_concat.
Qed.

(** The slice [msg[:len(msg)-1]] of [getMessageln] is within bounds. *)
Lemma slice_in_bounds a : (1 <= String.length (Fmt.Sprintln a))%nat.
Proof.
  rewrite Sprintln_concat.
  induction (String.concat " " (map Fmt.formatV a)) as [|c s IH];
    simpl; lia.
Qed.

(** C6. [getMessage] uses a single string argument verbatim when the
    template is empty, yields the empty string for no template and no
    arguments, and substitutes the arguments into a non-empty template:
    on "hello" alone it gives "hello", on nothing it gives "", and on
    "%d-%s" with 3 and "x" it gives "3-x".  For every input: without
    arguments the template is returned as it is; a non-empty template
    with arguments is the [Sprintf] of the two, also when the only
    argument is a string; an empty template with one string argument is
    that string; and an empty template with any other non-empty argument
    list is the [Sprint] of the arguments. *)
Theorem getMessage_modes :
  getMessage "" [VString "hello"] = "hello" /\
  getMessage "" [] = "" /\
  getMessage "%d-%s" [VInt 3; VString "x"] = "3-x" /\
  (forall template, getMessage template [] = template) /\
  (forall template fmtArgs,
     template <> "" -> fmtArgs <> [] ->
     getMessage template fmtArgs = Fmt.Sprintf template fmtArgs) /\
  (forall str, getMessage "" [VString str] = str) /\
  (forall fmtArgs,
     fmtArgs <> [] -> (forall str, fmtArgs <> [VString str]) ->
     getMessage "" fmtArgs = Fmt.Sprint fmtArgs).
Proof.
  split; [reflexivity|]. split; [reflexivity|]. split; [reflexivity|].
  split; [reflexivity|]. split; [|split].
  - intros template fmtArgs Ht Ha. unfold getMessage.
    destruct fmtArgs as [|v rest]; [contradiction|].
    simpl length. simpl Nat.eqb. cbv iota.
    destruct (String.eqb_spec template ""); [contradiction | reflexivity].
  - reflexivity.
  - intros fmtArgs Ha Hs.
    destruct fmtArgs as [|v rest]; [contradiction|].
    destruct v as [str|n|b]; try (destruct rest; reflexivity).
    destruct rest as [|w rest]; [|reflexivity].
    exfalso. now apply (Hs str).
Qed.

Lemma getMessage_modes_witness :
  getMessage "failed: %s" [VString "disk full"] = "failed: disk full" /\
  getMessage "" [VInt 4; VInt 2] = "4 2".
Proof.
  split.
  - apply (proj1 (proj2 (proj2 (proj2 (proj2 getMessage_modes))))
             "failed: %s" [VString "disk full"]); discriminate.
  - apply (proj2 (proj2 (proj2 (proj2 (proj2 (proj2 getMessage_modes)))))
             [VInt 4; VInt 2]); [discriminate|]. intros str. discriminate.
Defined.

(** C7. [getMessageln] joins its arguments with single spaces and strips
    the newline that [Sprintln] puts at the end; on ["a"; "b"] it yields
    "a b". *)
Theorem getMessageln_joins_with_spaces :
  getMessageln [VString "a"; VString "b"] = "a b" /\
  forall fmtArgs,
    Fmt.Sprintln fmtArgs =
      String.concat " " (map Fmt.formatV fmtArgs) ++ newline /\
    getMessageln fmtArgs = String.concat " " (map Fmt.formatV fmtArgs).
Proof.
  split; [reflexivity|]. intros fmtArgs.
  split; [apply Sprintln_concat|].
  unfold getMessageln. rewrite Sprintln_concat.
  apply drop_last_byte_append.
Qed.

Example Itoa_neg : Itoa (-42) = "-42".
Proof. reflexivity. Qed.

Example Sprintf_bad :
  Fmt.Sprintf "%d/%s" [VString "x"] = "%!d(string=x)/%!s(MISSING)".
Proof. reflexivity. Qed.

Example Sprintf_extra :
  Fmt.Sprintf "100%%" [VInt 1; VBool true] = "100%%!(EXTRA int=1, bool=true)".
Proof. reflexivity. Qed.

Example Sprint_mixed :
  Fmt.Sprint [VInt 1; VInt 2; VString "a"; VInt 3] = "1 2a3".
Proof. reflexivity. Qed.

Example getMessage_plain_join : getMessage "" [VInt 1; VInt 2] = "1 2".
Proof. reflexivity. Qed.

Example Level_String_unknown : Level_String 9 = "Level(9)".
Proof. reflexivity. Qed.

(** ** The sugared decorator *)

(** C4. On a recording span, a sugared call whose severity is below both
    LogLevel and ErrorStatusLevel leaves the correlation routine before
    any message is built, before the caller recorder runs and before the
    span is touched: the routine makes no call at all, and the one call
    the method makes is the forwarding call with the original arguments. *)
Theorem sugared_below_thresholds_only_forwards rt s c t0 :
  span_IsRecording (SpanFromContext (stdSugaredLogger.ctx s)) = true ->
  SugaredCall_level c < stdSugaredLogger.LogLevel s ->
  SugaredCall_level c < stdSugaredLogger.ErrorStatusLevel s ->
  run (stdSugaredLogger_sugaredTraceInfo rt s (SugaredCall_level c)
         (SugaredCall_msg c) (SugaredCall_ln c) (SugaredCall_args c)) t0 =
    (tt, t0) /\
  run (stdSugaredLogger_call rt s c) t0 =
    (tt,
     (t0 ++ [ESink (base (stdSugaredLogger.SugaredLogger s))
               (SugaredCall_forwarded c)])%list).
Proof.
  intros Hrec Hll Hesl.
  assert (Hrun :
    run (stdSugaredLogger_sugaredTraceInfo rt s (SugaredCall_level c)
           (SugaredCall_msg c) (SugaredCall_ln c) (SugaredCall_args c)) t0 =
    (tt, t0)).
  { rewrite sugaredTraceInfo_run, Hrec.
    destruct (Z.ltb_spec (SugaredCall_level c) (stdSugaredLogger.LogLevel s));
      [|lia].
    destruct (Z.ltb_spec (SugaredCall_level c)
                (stdSugaredLogger.ErrorStatusLevel s)); [|lia].
    simpl. now rewrite app_nil_r. }
  split; [exact Hrun|].
  rewrite stdSugaredLogger_call_run, Hrun. reflexivity.
Qed.

Lemma sugared_below_thresholds_only_forwards_witness :
  run (stdSugaredLogger_call demo_rt demo_sugared
         (CallPrintf Info "user %d logged in" [VInt 7])) [] =
  (tt, [ESink demo_zap (Sugared_printf Info "user %d logged in" [VInt 7])]).
Proof.
  apply (sugared_below_thresholds_only_forwards demo_rt demo_sugared
           (CallPrintf Info "user %d logged in" [VInt 7]) []).
  - reflexivity.
  - simpl. unfold InfoLevel, WarnLevel. lia.
  - simpl. unfold InfoLevel, ErrorLevel. lia.
Defined.

(** C8. For a key-value-styled call ([Debugw] .. [Fatalw]) on a recording
    span, the message of the mirrored event and of the error status is
    the [msg] argument as given, the event's attributes are built from the
    severity, that message and the caller recorder only, and the
    key/value pairs reach nothing but the wrapped logger: the calls made
    on the span are the same whatever the pairs are. *)
Theorem kv_call_mirrors_literal_msg rt s m msg keysAndValues t0 :
  span_IsRecording (SpanFromContext (stdSugaredLogger.ctx s)) = true ->
  exists tr,
    run (stdSugaredLogger_call rt s (CallPrintw m msg keysAndValues)) t0 =
      (tt, (t0 ++ tr)%list) /\
    span_calls tr =
      ((if Method_level m >=? stdSugaredLogger.LogLevel s then
          [AddEvent "log"
             (recordCaller rt
                [Key_String logSeverityKey (Level_String (Method_level m));
                 Key_String logMessageKey msg]
                (stdSugaredLogger.CallerDepth s)
                (uint8 (3 + stdSugaredLogger.CallerSkip s)))]
        else []) ++
       (if Method_level m >=? stdSugaredLogger.ErrorStatusLevel s then
          [SetStatus codes_Error msg]
        else []))%list /\
    sink_calls tr =
      [(base (stdSugaredLogger.SugaredLogger s),
        Sugared_printw m msg keysAndValues)] /\
    forall keysAndValues',
    exists tr',
      run (stdSugaredLogger_call rt s (CallPrintw m msg keysAndValues')) t0 =
        (tt, (t0 ++ tr')%list) /\
      span_calls tr' = span_calls tr.
Proof.
  intros Hrec.
  assert (Hrun : forall kvs,
    run (stdSugaredLogger_call rt s (CallPrintw m msg kvs)) t0 =
    (tt,
     (t0 ++
      (if (Method_level m <? stdSugaredLogger.LogLevel s)
          && (Method_level m <? stdSugaredLogger.ErrorStatusLevel s) then []
       else
         EGetMessage msg [] ::
         mirror_trace rt (stdSugaredLogger.LogLevel s)
           (stdSugaredLogger.ErrorStatusLevel s)
           (stdSugaredLogger.CallerDepth s)
           (uint8 (3 + stdSugaredLogger.CallerSkip s)) (Method_level m) msg) ++
      [ESink (base (stdSugaredLogger.SugaredLogger s))
         (Sugared_printw m msg kvs)])%list)).
  { intros kvs. rewrite stdSugaredLogger_call_run, sugaredTraceInfo_run, Hrec.
    simpl. now rewrite <- app_assoc. }
  eexists. split; [apply Hrun|].
  assert (Hspan : forall kvs,
    span_calls
      ((if (Method_level m <? stdSugaredLogger.LogLevel s)
           && (Method_level m <? stdSugaredLogger.ErrorStatusLevel s) then []
        else
          EGetMessage msg [] ::
          mirror_trace rt (stdSugaredLogger.LogLevel s)
            (stdSugaredLogger.ErrorStatusLevel s)
            (stdSugaredLogger.CallerDepth s)
            (uint8 (3 + stdSugaredLogger.CallerSkip s)) (Method_level m) msg) ++
       [ESink (base (stdSugaredLogger.SugaredLogger s))
          (Sugared_printw m msg kvs)])%list =
    ((if Method_level m >=? stdSugaredLogger.LogLevel s then
        [AddEvent "log"
           (mirror_attrs rt (stdSugaredLogger.CallerDepth s)
              (uint8 (3 + stdSugaredLogger.CallerSkip s)) (Method_level m) msg)]
      else []) ++
     (if Method_level m >=? stdSugaredLogger.ErrorStatusLevel s then
        [SetStatus codes_Error msg]
      else []))%list).
  { intros kvs. rewrite span_calls_app. simpl (span_calls [_]).
    rewrite app_nil_r.
    destruct (Z.ltb_spec (Method_level m) (stdSugaredLogger.LogLevel s));
      destruct (Z.ltb_spec (Method_level m)
                  (stdSugaredLogger.ErrorStatusLevel s));
      simpl andb; cbv iota;
      try (simpl span_calls; apply mirror_trace_span_calls).
    destruct (Z.geb_spec (Method_level m) (stdSugaredLogger.LogLevel s));
      [lia|].
    destruct (Z.geb_spec (Method_level m)
                (stdSugaredLogger.ErrorStatusLevel s)); [lia|].
    reflexivity. }
  split; [apply Hspan|].
  split.
  - rewrite sink_calls_app.
    destruct ((Method_level m <? stdSugaredLogger.LogLevel s)
              && (Method_level m <? stdSugaredLogger.ErrorStatusLevel s));
      simpl; [reflexivity|].
    now rewrite mirror_trace_sink_calls.
  - intros kvs'. eexists. split; [apply Hrun|].
    now rewrite !Hspan.
Qed.

Lemma kv_call_mirrors_literal_msg_witness :
  exists tr,
    run (stdSugaredLogger_call demo_rt demo_sugared
           (CallPrintw Error "disk %s full" [VString "dev"; VString "sda"]))
        [] = (tt, tr) /\
    span_calls tr =
      [AddEvent "log"
         (recordCaller demo_rt
            [Key_String logSeverityKey "error";
             Key_String logMessageKey "disk %s full"] 8 3);
       SetStatus codes_Error "disk %s full"].
Proof.
  destruct (kv_call_mirrors_literal_msg demo_rt demo_sugared Error
              "disk %s full" [VString "dev"; VString "sda"] [] eq_refl)
    as (tr & Hrun & Hspan & _).
  exists tr. split; [exact Hrun | exact Hspan].
Defined.

(** ** Construction *)

(** C5. [WithContext] and [SugarWithContext] return the base logger
    itself, with no decorator around it and no identifier field added,
    when the context is nil and when the span context found in it is not
    valid, whatever the options. *)
Theorem WithContext_without_valid_span zLogger zsLogger opts :
  WithContext None zLogger opts = StdLogger_zap zLogger /\
  SugarWithContext None zsLogger opts = StdSugaredLogger_zap zsLogger /\
  forall ctx,
    IsValid (SpanContextFromContext ctx) = false ->
    WithContext ctx zLogger opts = StdLogger_zap zLogger /\
    SugarWithContext ctx zsLogger opts = StdSugaredLogger_zap zsLogger.
Proof.
  split; [reflexivity|]. split; [reflexivity|].
  intros ctx H. unfold WithContext, SugarWithContext.
  destruct ctx as [c|]; [|split; reflexivity].
  rewrite H. split; reflexivity.
Qed.

Lemma WithContext_without_valid_span_witness :
  WithContext (Some (mkContext (Some (mkSpan (mkSpanContext 0 16 1) true))))
    demo_zap [WithLogSpanId true] = StdLogger_zap demo_zap /\
  SugarWithContext (Some (mkContext None)) (mkSugar demo_zap)
    [WithLogSpanId true] = StdSugaredLogger_zap (mkSugar demo_zap).
Proof.
  split.
  - apply (WithContext_without_valid_span demo_zap (mkSugar demo_zap)
             [WithLogSpanId true]).
    reflexivity.
  - apply (WithContext_without_valid_span demo_zap (mkSugar demo_zap)
             [WithLogSpanId true]).
    reflexivity.
Defined.

(** C10. Without options the config is: trace id on, span id off, sampled
    flag off, LogLevel Error, ErrorStatusLevel Error, CallerDepth 8,
    CallerSkip 0.  A decorator built without options therefore adds the
    trace_id field and no other to the wrapped logger, and mirrors a
    record to the span exactly when its severity is Error or above (and
    the span is recording). *)
Theorem applyConfig_defaults :
  applyConfig [] = mkConfig true false false ErrorLevel ErrorLevel 8 0 /\
  (forall ctx zLogger,
     IsValid (SpanContextFromContext ctx) = true ->
     WithContext ctx zLogger [] =
     StdLogger_std
       (stdLogger.mk
          (mkZap
             (zl_fields zLogger ++
              [zap_String "trace_id"
                 (TraceID_String (SpanContextFromContext ctx))])%list
             (zl_callerSkip zLogger + 1))
          ctx ErrorLevel ErrorLevel 8 0)) /\
  (forall ctx zsLogger,
     IsValid (SpanContextFromContext ctx) = true ->
     SugarWithContext ctx zsLogger [] =
     StdSugaredLogger_std
       (stdSugaredLogger.mk
          (mkSugar
             (mkZap
                (zl_fields (base zsLogger) ++
                 [zap_String "trace_id"
                    (TraceID_String (SpanContextFromContext ctx))])%list
                (zl_callerSkip (base zsLogger) + 1)))
          ctx ErrorLevel ErrorLevel 8 0)) /\
  (forall rt l c msg fields t0,
     stdLogger.LogLevel l = LogLevel (applyConfig []) ->
     exists tr,
       run (stdLogger_call rt l c msg fields) t0 = (tt, (t0 ++ tr)%list) /\
       ((exists name attrs, In (AddEvent name attrs) (span_calls tr)) <->
        (ErrorLevel <= StdCall_level c /\
         span_IsRecording (SpanFromContext (stdLogger.ctx l)) = true))).
Proof.
  split; [reflexivity|]. split; [|split].
  - intros ctx zLogger H. unfold WithContext.
    destruct ctx as [c|]; [|discriminate H].
    rewrite H. reflexivity.
  - intros ctx zsLogger H. unfold SugarWithContext.
    destruct ctx as [c|]; [|discriminate H].
    rewrite H. reflexivity.
  - intros rt l c msg fields t0 Hl.
    eexists. split; [apply stdLogger_call_run|].
    rewrite span_calls_app. rewrite Hl.
    change (LogLevel (applyConfig [])) with ErrorLevel.
    destruct (span_IsRecording (SpanFromContext (stdLogger.ctx l))).
    + rewrite mirror_trace_span_calls.
      destruct (Z.geb_spec (StdCall_level c) ErrorLevel);
        destruct (Z.geb_spec (StdCall_level c) (stdLogger.ErrorStatusLevel l));
        simpl; split; intros; close_calls.
    + simpl. split; intros; close_calls.
Qed.

Lemma applyConfig_defaults_witness :
  WithContext demo_ctx demo_zap [] =
  StdLogger_std
    (stdLogger.mk
       (mkZap
          [zap_String "service" "api";
           zap_String "trace_id" "000000000000000000000000000000ff"]
          1)
       demo_ctx ErrorLevel ErrorLevel 8 0).
Proof.
  apply (proj1 (proj2 applyConfig_defaults) demo_ctx demo_zap).
  reflexivity.
Defined.

Example WithContext_all_ids :
  WithContext demo_ctx demo_zap
    [WithLogSpanId true; WithLogSampled true; WithLogLevel WarnLevel;
     WithCallerDepth (-1); WithCallerSkip 2] =
  StdLogger_std
    (stdLogger.mk
       (mkZap
          [zap_String "service" "api";
           zap_String "trace_id" "000000000000000000000000000000ff";
           zap_String "span_id" "0000000000000010";
           zap_String "sampled" "01"]
          1)
       demo_ctx WarnLevel ErrorLevel (-1) 2).
Proof. reflexivity. Qed.

(** The scenario of the design document: thresholds Warn and Error on a
    recording span. *)
Example scenario_warn :
  span_calls (snd (run (stdLogger_call demo_rt demo_std (CallLeveled Warn)
                          "disk low" []) [])) =
  [AddEvent "log"
     (recordCaller demo_rt
        [Key_String logSeverityKey "warn"; Key_String logMessageKey "disk low"]
        8 3)].
Proof. reflexivity. Qed.

Example scenario_error :
  span_calls (snd (run (stdLogger_call demo_rt demo_std (CallLeveled Error)
                          "disk full" []) [])) =
  [AddEvent "log"
     (recordCaller demo_rt
        [Key_String logSeverityKey "error";
         Key_String logMessageKey "disk full"] 8 3);
   SetStatus codes_Error "disk full"].
Proof. reflexivity. Qed.

Example scenario_debug :
  snd (run (stdLogger_call demo_rt demo_std (CallLeveled Debug) "tick" []) [])
  = [ESink demo_zap (Logger_leveled Debug "tick" [])].
Proof. reflexivity. Qed.

(** * Further properties of the code *)

(** ** The caller recorder, for every stack *)

Lemma removelast_length_pred {A} (l : list A) :
  length (removelast l) = pred (length l).
Proof.
  induction l as [|x l IH]; [reflexivity|].
  destruct l as [|y l]; [reflexivity|].
  change (removelast (x :: y :: l)) with (x :: removelast (y :: l)).
  simpl length in *. now rewrite IH.
Qed.

Lemma captured_length rt skip n : (length (captured rt skip n) <= n)%nat.
Proof.
  unfold captured.
  etransitivity; [apply resolve_all_length|].
  apply firstn_le_length.
Qed.

(** X1. [recordCaller] never drops or reorders the attributes it is
    given: its result is the input followed by at most four attributes,
    whose keys are code.function, code.filepath, code.lineno and
    exception.stacktrace. *)
Theorem recordCaller_extends_attrs rt attrs callerDepth skip :
  exists added,
    recordCaller rt attrs callerDepth skip = (attrs ++ added)%list /\
    (length added <= 4)%nat /\
    forall kv, In kv added ->
      Key kv = CodeFunctionKey \/ Key kv = CodeFilepathKey \/
      Key kv = CodeLineNumberKey \/ Key kv = ExceptionStacktraceKey.
Proof.
  rewrite recordCaller_spec.
  destruct (callerDepth >=? 0).
  - cbv zeta. eexists. split; [reflexivity|].
    destruct (removelast _) as [|f P]; destruct (callerDepth =? 0);
      simpl; (split; [lia|]); intros kv H; break_hyps; subst; simpl; auto.
  - exists []. rewrite app_nil_r. split; [reflexivity|].
    split; [simpl; lia|]. intros kv [].
Qed.

(** X2. With a positive [callerDepth] the result ends with one
    exception.stacktrace attribute.  Its text has one line for each frame
    captured above the skip point except the last captured one, hence at
    most [callerDepth - 1] lines, and the function/file/line triple is
    that of the first of these frames. *)
Theorem recordCaller_positive_depth rt attrs callerDepth skip :
  0 < callerDepth ->
  let P := removelast (captured rt skip (Z.to_nat callerDepth)) in
  recordCaller rt attrs callerDepth skip =
    (attrs ++ caller_triple P ++
     [Key_String ExceptionStacktraceKey (stack_text P)])%list /\
  (length P <= Z.to_nat callerDepth - 1)%nat.
Proof.
  intros H P. split.
  - rewrite recordCaller_spec.
    destruct (Z.geb_spec callerDepth 0); [|lia].
    destruct (Z.eqb_spec callerDepth 0); [lia|]. reflexivity.
  - subst P. rewrite removelast_length_pred.
    pose proof (captured_length rt skip (Z.to_nat callerDepth)). lia.
Qed.

Lemma recordCaller_positive_depth_witness :
  recordCaller demo_rt [] 3 3 =
  (caller_triple [frame_handler] ++
   [Key_String ExceptionStacktraceKey
      (stack_text [frame_handler; frame_main])])%list.
Proof.
  apply (recordCaller_positive_depth demo_rt [] 3 3). lia.
Defined.

(** X3. With [callerDepth = 0] the attributes come back unchanged, for
    every stack, every attribute list and every skip: the one captured
    frame is the last one and the loop leaves before recording it. *)
Theorem recordCaller_zero_depth_unchanged rt attrs skip :
  recordCaller rt attrs 0 skip = attrs.
Proof. apply recordCaller_depth0. Qed.

(** X4. When the skip reaches past the end of the stack and
    [callerDepth] is positive, nothing is captured and the only attribute
    added is an exception.stacktrace with the empty text. *)
Theorem recordCaller_skip_past_stack rt attrs callerDepth skip :
  0 < callerDepth ->
  (length (rt_stack rt) <= Z.to_nat (skip + 1))%nat ->
  recordCaller rt attrs callerDepth skip =
  (attrs ++ [Key_String ExceptionStacktraceKey ""])%list.
Proof.
  intros Hd Hs. rewrite recordCaller_spec.
  destruct (Z.geb_spec callerDepth 0); [|lia].
  destruct (Z.eqb_spec callerDepth 0); [lia|].
  cbv zeta. unfold captured. rewrite skipn_all2 by exact Hs.
  rewrite firstn_nil. reflexivity.
Qed.

Lemma recordCaller_skip_past_stack_witness :
  recordCaller demo_rt [] 8 30 = [Key_String ExceptionStacktraceKey ""].
Proof.
  apply (recordCaller_skip_past_stack demo_rt [] 8 30).
  - lia.
  - vm_compute. lia.
Defined.

(** ** The decorators, call by call *)

Lemma work_calls_app a b :
  work_calls (a ++ b)%list = (work_calls a ++ work_calls b)%list.
Proof.
  induction a as [|e a IH]; [reflexivity|].
  destruct e; simpl; now rewrite IH.
Qed.

Lemma mirror_trace_work_calls rt ll esl d k lvl msg :
  work_calls (mirror_trace rt ll esl d k lvl msg) =
  if lvl >=? ll then [ERecordCaller d k] else [].
Proof.
  unfold mirror_trace. destruct (lvl >=? ll); destruct (lvl >=? esl);
    reflexivity.
Qed.

(** X5. On a span that is not recording, a call on either decorator does
    nothing but forward: the only call it makes is the same call on the
    wrapped logger; no message is built, the stack is not walked and the
    span is not touched, whatever the severity and the thresholds. *)
Theorem non_recording_span_only_forwards rt l s c sc msg fields t0 :
  span_IsRecording (SpanFromContext (stdLogger.ctx l)) = false ->
  span_IsRecording (SpanFromContext (stdSugaredLogger.ctx s)) = false ->
  run (stdLogger_call rt l c msg fields) t0 =
    (tt, (t0 ++ [ESink (stdLogger.Logger l)
                   (StdCall_forwarded c msg fields)])%list) /\
  run (stdSugaredLogger_call rt s sc) t0 =
    (tt, (t0 ++ [ESink (base (stdSugaredLogger.SugaredLogger s))
                   (SugaredCall_forwarded sc)])%list).
Proof.
  intros Hl Hs. split.
  - rewrite stdLogger_call_run, Hl. reflexivity.
  - rewrite stdSugaredLogger_call_run, sugaredTraceInfo_run, Hs.
    simpl. now rewrite app_nil_r.
Qed.

Lemma non_recording_span_only_forwards_witness :
  run (stdLogger_call demo_rt demo_idle_std (CallLeveled Fatal) "boom" []) []
    = (tt, [ESink demo_zap (Logger_leveled Fatal "boom" [])]) /\
  run (stdSugaredLogger_call demo_rt demo_idle_sugared
         (CallPrintln Fatal [VString "boom"])) []
    = (tt, [ESink demo_zap (Sugared_println Fatal [VString "boom"])]).
Proof.
  apply (non_recording_span_only_forwards demo_rt demo_idle_std
           demo_idle_sugared (CallLeveled Fatal)
           (CallPrintln Fatal [VString "boom"]) "boom" [] []);
    reflexivity.
Defined.

(** X6. On either decorator the forwarding call is the last thing a
    method does and the only call it makes on the wrapped logger: the
    event and the status are on the span before the wrapped logger (which
    may end the process on Panic and Fatal) is called. *)
Theorem forwarding_comes_last rt l s c sc msg fields t0 :
  (exists pre,
     run (stdLogger_call rt l c msg fields) t0 =
       (tt, (t0 ++ pre ++
             [ESink (stdLogger.Logger l)
                (StdCall_forwarded c msg fields)])%list) /\
     sink_calls pre = []) /\
  (exists pre,
     run (stdSugaredLogger_call rt s sc) t0 =
       (tt, (t0 ++ pre ++
             [ESink (base (stdSugaredLogger.SugaredLogger s))
                (SugaredCall_forwarded sc)])%list) /\
     sink_calls pre = []).
Proof.
  split.
  - eexists. split; [apply stdLogger_call_run|].
    destruct (span_IsRecording _); [apply mirror_trace_sink_calls|reflexivity].
  - eexists. split.
    + rewrite stdSugaredLogger_call_run, sugaredTraceInfo_run. simpl snd.
      now rewrite <- app_assoc.
    + destruct (span_IsRecording _); [|reflexivity].
      destruct (_ && _); [reflexivity|].
      destruct (SugaredCall_ln sc); simpl; apply mirror_trace_sink_calls.
Qed.

(** X7. On a recording span, a sugared call whose severity reaches
    LogLevel or ErrorStatusLevel resolves its message exactly once, by
    [getMessageln] for the line-style methods and by [getMessage] for the
    others, and that one message is the log.message of the event and the
    description of the error status. *)
Theorem sugared_message_resolved_once rt s sc t0 :
  span_IsRecording (SpanFromContext (stdSugaredLogger.ctx s)) = true ->
  stdSugaredLogger.LogLevel s <= SugaredCall_level sc \/
  stdSugaredLogger.ErrorStatusLevel s <= SugaredCall_level sc ->
  let S := SugaredCall_level sc in
  let skip := uint8 (3 + stdSugaredLogger.CallerSkip s) in
  let m := if SugaredCall_ln sc then getMessageln (SugaredCall_args sc)
           else getMessage (SugaredCall_msg sc) (SugaredCall_args sc) in
  exists tr,
    run (stdSugaredLogger_call rt s sc) t0 = (tt, (t0 ++ tr)%list) /\
    work_calls tr =
      ((if SugaredCall_ln sc then EGetMessageln (SugaredCall_args sc)
        else EGetMessage (SugaredCall_msg sc) (SugaredCall_args sc)) ::
       (if S >=? stdSugaredLogger.LogLevel s then
          [ERecordCaller (stdSugaredLogger.CallerDepth s) skip]
        else []))%list /\
    span_calls tr =
      ((if S >=? stdSugaredLogger.LogLevel s then
          [AddEvent "log"
             (recordCaller rt
                [Key_String logSeverityKey (Level_String S);
                 Key_String logMessageKey m]
                (stdSugaredLogger.CallerDepth s) skip)]
        else []) ++
       (if S >=? stdSugaredLogger.ErrorStatusLevel s then
          [SetStatus codes_Error m]
        else []))%list.
Proof.
  intros Hrec Hreach S skip m.
  eexists. split.
  - rewrite stdSugaredLogger_call_run, sugaredTraceInfo_run, Hrec. simpl snd.
    rewrite <- app_assoc. reflexivity.
  - fold S. fold skip.
    destruct (Z.ltb_spec S (stdSugaredLogger.LogLevel s));
      destruct (Z.ltb_spec S (stdSugaredLogger.ErrorStatusLevel s));
      simpl andb; cbv iota;
      try (exfalso; unfold S in *; lia);
      rewrite work_calls_app, span_calls_app;
      simpl (work_calls [_]); simpl (span_calls [_]); rewrite !app_nil_r;
      (split;
       [ destruct (SugaredCall_ln sc); simpl work_calls;
         rewrite mirror_trace_work_calls; reflexivity
       | destruct (SugaredCall_ln sc); simpl span_calls;
         rewrite mirror_trace_span_calls; reflexivity ]).
Qed.

Lemma sugared_message_resolved_once_witness :
  exists tr,
    run (stdSugaredLogger_call demo_rt demo_sugared
           (CallPrintf Warn "disk %d%% full" [VInt 91])) [] = (tt, tr) /\
    work_calls tr =
      [EGetMessage "disk %d%% full" [VInt 91]; ERecordCaller 8 3] /\
    span_calls tr =
      [AddEvent "log"
         (recordCaller demo_rt
            [Key_String logSeverityKey "warn";
             Key_String logMessageKey "disk 91% full"] 8 3)].
Proof.
  destruct (sugared_message_resolved_once demo_rt demo_sugared
              (CallPrintf Warn "disk %d%% full" [VInt 91]) [] eq_refl)
    as (tr & Hrun & Hwork & Hspan).
  - left. simpl. unfold WarnLevel. lia.
  - exists tr. split; [exact Hrun|]. split; [exact Hwork | exact Hspan].
Defined.

(** X8. The skip handed to the caller recorder is computed in uint8: it
    is [CallerSkip + 3] as long as [CallerSkip <= 252], and wraps round
    to [CallerSkip - 253], that is to 0, 1 or 2, for the three largest
    values of [CallerSkip]. *)
Theorem recorder_skip_wraps rt l c msg fields t0 :
  span_IsRecording (SpanFromContext (stdLogger.ctx l)) = true ->
  stdLogger.LogLevel l <= StdCall_level c ->
  0 <= stdLogger.CallerSkip l <= 255 ->
  exists tr,
    run (stdLogger_call rt l c msg fields) t0 = (tt, (t0 ++ tr)%list) /\
    work_calls tr =
      [ERecordCaller (stdLogger.CallerDepth l)
         (if stdLogger.CallerSkip l <=? 252 then stdLogger.CallerSkip l + 3
          else stdLogger.CallerSkip l - 253)].
Proof.
  intros Hrec Hlvl Hrange.
  eexists. split; [apply stdLogger_call_run|].
  rewrite Hrec, work_calls_app, mirror_trace_work_calls.
  destruct (Z.geb_spec (StdCall_level c) (stdLogger.LogLevel l)); [|lia].
  simpl. do 2 f_equal. unfold uint8.
  destruct (Z.leb_spec (stdLogger.CallerSkip l) 252).
  - apply Z.mod_small. lia.
  - replace (stdLogger.CallerSkip l + 3)
      with (stdLogger.CallerSkip l - 253 + 1 * 256) by lia.
    rewrite Z.mod_add by lia. apply Z.mod_small. lia.
Qed.

Lemma recorder_skip_wraps_witness :
  exists tr,
    run (stdLogger_call demo_rt
           (stdLogger.mk demo_zap demo_ctx ErrorLevel ErrorLevel 8 254)
           (CallLeveled Error) "disk full" []) [] = (tt, tr) /\
    work_calls tr = [ERecordCaller 8 1].
Proof.
  destruct (recorder_skip_wraps demo_rt
              (stdLogger.mk demo_zap demo_ctx ErrorLevel ErrorLevel 8 254)
              (CallLeveled Error) "disk full" [] [] eq_refl)
    as (tr & Hrun & Hwork).
  - simpl. lia.
  - simpl. lia.
  - exists tr. split; [exact Hrun | exact Hwork].
Defined.

(** ** Options of [pkg/otel] *)

Lemma applyConfig_snoc opts o :
  applyConfig (opts ++ [o]) = apply o (applyConfig opts).
Proof. unfold applyConfig. now rewrite fold_left_app. Qed.

(** X9. [WithCallerDepth] stores its argument converted to int8 and
    leaves the rest of the config alone: a depth from -128 to 127 is kept
    as given, a depth from 128 to 255 becomes the negative number
    [depth - 256] (which turns caller recording off), and the stored
    value is always in the int8 range. *)
Theorem WithCallerDepth_int8 opts depth :
  let before := applyConfig opts in
  let after := applyConfig (opts ++ [WithCallerDepth depth]) in
  after =
    mkConfig (LogTraceId before) (LogSpanId before) (LogSampled before)
      (LogLevel before) (ErrorStatusLevel before) (CallerDepth after)
      (CallerSkip before) /\
  -128 <= CallerDepth after <= 127 /\
  (-128 <= depth <= 127 -> CallerDepth after = depth) /\
  (128 <= depth <= 255 -> CallerDepth after = depth - 256).
Proof.
  intros before after. subst after. rewrite applyConfig_snoc. fold before.
  unfold apply, WithCallerDepth. simpl CallerDepth. unfold int8.
  split; [reflexivity|].
  pose proof (Z.mod_pos_bound (depth + 128) 256 ltac:(lia)).
  split; [lia|]. split; intros Hd.
  - rewrite Z.mod_small; lia.
  - replace (depth + 128) with (depth - 128 + 1 * 256) by lia.
    rewrite Z.mod_add by lia. rewrite Z.mod_small; lia.
Qed.

(** X10. [WithCallerSkip] with a skip of zero or less changes nothing;
    with a positive skip it sets [CallerSkip] to the skip modulo 256 (so
    256 gives 0) and leaves the rest of the config alone. *)
Theorem WithCallerSkip_effect opts skip :
  let before := applyConfig opts in
  let after := applyConfig (opts ++ [WithCallerSkip skip]) in
  (skip <= 0 -> after = before) /\
  (0 < skip ->
   after =
     mkConfig (LogTraceId before) (LogSpanId before) (LogSampled before)
       (LogLevel before) (ErrorStatusLevel before) (CallerDepth before)
       (skip mod 256) /\
   0 <= CallerSkip after <= 255).
Proof.
  intros before after. subst after. rewrite applyConfig_snoc. fold before.
  unfold apply, WithCallerSkip.
  destruct (Z.gtb_spec skip 0); split; intros H0; try lia.
  - split; [reflexivity|]. simpl. unfold uint8.
    pose proof (Z.mod_pos_bound skip 256 ltac:(lia)). lia.
  - reflexivity.
Qed.

(** X11. Two options that set different fields can be swapped anywhere
    in the option list without changing the resolved config. *)
Theorem options_on_different_fields_commute pre post a b :
  Setter_field a <> Setter_field b ->
  applyConfig (pre ++ [Setter_option a; Setter_option b] ++ post) =
  applyConfig (pre ++ [Setter_option b; Setter_option a] ++ post).
Proof.
  intros Hab. unfold applyConfig.
  rewrite !fold_left_app. simpl fold_left at 2 4.
  f_equal.
  generalize (fold_left (fun cfg opt => apply opt cfg) pre
                (mkConfig true false false ErrorLevel ErrorLevel 8 0)).
  intros cfg0. unfold apply.
  destruct a, b; simpl in Hab; try congruence; simpl Setter_option;
    unfold WithLogTraceId, WithLogSpanId, WithLogSampled, WithLogLevel,
      WithErrorStatusLevel, WithCallerDepth, WithCallerSkip;
    repeat match goal with
           | |- context [?k >? 0] => destruct (k >? 0)
           end;
    reflexivity.
Qed.

Lemma options_on_different_fields_commute_witness :
  applyConfig [WithLogSpanId true; WithLogTraceId true;
               WithErrorStatusLevel ErrorLevel; WithCallerSkip 2] =
  applyConfig [WithLogSpanId true; WithErrorStatusLevel ErrorLevel;
               WithLogTraceId true; WithCallerSkip 2].
Proof.
  apply (options_on_different_fields_commute [WithLogSpanId true]
           [WithCallerSkip 2] (SetLogTraceId true)
           (SetErrorStatusLevel ErrorLevel)).
  simpl. lia.
Defined.

(** ** The configured loggers *)

(** X12. [logger.WithContext] and [sugaredLogger.WithContext] return the
    configured logger itself when the span context is not valid (a nil
    context included), and for a valid one they build exactly the
    decorator that the package-level [WithContext] and [SugarWithContext]
    build from the same zap logger and options. *)
Theorem configured_WithContext_agrees log slog opts ctx :
  logger_WithContext (NewLogger log opts) None =
    LoggerStd_logger (NewLogger log opts) /\
  (IsValid (SpanContextFromContext ctx) = false ->
   logger_WithContext (NewLogger log opts) ctx =
     LoggerStd_logger (NewLogger log opts) /\
   sugaredLogger_WithContext (NewSugaredLogger slog opts) ctx =
     SugaredStd_sugaredLogger (NewSugaredLogger slog opts)) /\
  (IsValid (SpanContextFromContext ctx) = true ->
   (exists l,
      logger_WithContext (NewLogger log opts) ctx = LoggerStd_std l /\
      WithContext ctx log opts = StdLogger_std l) /\
   (exists s,
      sugaredLogger_WithContext (NewSugaredLogger slog opts) ctx =
        SugaredStd_std s /\
      SugarWithContext ctx slog opts = StdSugaredLogger_std s)).
Proof.
  split; [reflexivity|]. split; intros H.
  - unfold logger_WithContext, sugaredLogger_WithContext. rewrite H.
    split; reflexivity.
  - destruct ctx as [c|]; [|discriminate H].
    unfold logger_WithContext, sugaredLogger_WithContext, WithContext,
      SugarWithContext. rewrite H.
    split; eexists; split; reflexivity.
Qed.

Lemma configured_WithContext_agrees_witness :
  exists l,
    logger_WithContext (NewLogger demo_zap [WithLogSpanId true]) demo_ctx =
      LoggerStd_std l /\
    WithContext demo_ctx demo_zap [WithLogSpanId true] = StdLogger_std l.
Proof.
  apply (proj2 (proj2 (configured_WithContext_agrees demo_zap
                         (mkSugar demo_zap) [WithLogSpanId true] demo_ctx))
           eq_refl).
Defined.

(** X13. A logger derived by [With] keeps the config of its parent: on a
    valid context both yield decorators with the same thresholds, depth
    and skip, and the wrapped logger of the child carries the parent's
    fields, then the added fields, then the same identifier fields. *)
Theorem With_then_WithContext l fields ctx :
  IsValid (SpanContextFromContext ctx) = true ->
  exists parent child ids,
    logger_WithContext l ctx = LoggerStd_std parent /\
    logger_WithContext (logger_With l fields) ctx = LoggerStd_std child /\
    stdLogger.LogLevel child = stdLogger.LogLevel parent /\
    stdLogger.ErrorStatusLevel child = stdLogger.ErrorStatusLevel parent /\
    stdLogger.CallerDepth child = stdLogger.CallerDepth parent /\
    stdLogger.CallerSkip child = stdLogger.CallerSkip parent /\
    zl_fields (stdLogger.Logger parent) =
      (zl_fields (logger.Logger l) ++ ids)%list /\
    zl_fields (stdLogger.Logger child) =
      (zl_fields (logger.Logger l) ++ fields ++ ids)%list /\
    zl_callerSkip (stdLogger.Logger child) =
      zl_callerSkip (stdLogger.Logger parent).
Proof.
  intros H. unfold logger_WithContext. rewrite H. simpl negb. cbv iota.
  do 3 eexists. split; [reflexivity|]. split; [reflexivity|].
  simpl. rewrite <- app_assoc. repeat split; reflexivity.
Qed.

Lemma With_then_WithContext_witness :
  exists child,
    logger_WithContext
      (logger_With (NewLogger demo_zap []) [zap_String "user" "u1"])
      demo_ctx = LoggerStd_std child /\
    zl_fields (stdLogger.Logger child) =
      [zap_String "service" "api"; zap_String "user" "u1";
       zap_String "trace_id" "000000000000000000000000000000ff"].
Proof.
  destruct (With_then_WithContext (NewLogger demo_zap [])
              [zap_String "user" "u1"] demo_ctx eq_refl)
    as (parent & child & ids & Hp & Hc & _ & _ & _ & _ & Hpf & Hcf & _).
  exists child. split; [exact Hc|].
  rewrite Hcf.
  injection Hp as Hp. subst parent. simpl in Hpf.
  injection Hpf as Hids. subst ids. reflexivity.
Defined.

(** X14. [Sugar] and [Desugar] undo each other on the configured
    loggers: the config is carried over unchanged and the two callers
    that the sugared wrapper skips in addition are given back. *)
Theorem Sugar_Desugar_round_trip l o :
  sugaredLogger_Desugar (logger_Sugar l) = l /\
  logger_Sugar (sugaredLogger_Desugar o) = o.
Proof.
  destruct l as [[fs k] c], o as [[[fs' k']] c'].
  unfold sugaredLogger_Desugar, logger_Sugar, SugaredLogger_Desugar,
    Logger_Sugar. simpl.
  split; do 2 f_equal; try f_equal; lia.
Qed.

(** ** Message resolution, for every argument list *)

Lemma length_append (s1 s2 : string) :
  String.length (s1 ++ s2) = (String.length s1 + String.length s2)%nat.
Proof. induction s1 as [|c s1 IH]; simpl; [reflexivity | now rewrite IH]. Qed.

Lemma drop_last_newline (s : string) : drop_last_byte (s ++ newline) = s.
Proof. apply drop_last_byte_append. Qed.

(** X15. The slice [msg[:len(msg)-1]] in [getMessageln] is always within
    bounds: [Sprintln] yields at least the newline, also for no
    arguments, and the result is exactly one byte shorter. *)
Theorem getMessageln_slice_within_bounds fmtArgs :
  (1 <= String.length (Fmt.Sprintln fmtArgs))%nat /\
  String.length (getMessageln fmtArgs) =
    (String.length (Fmt.Sprintln fmtArgs) - 1)%nat /\
  getMessageln [] = "".
Proof.
  split; [apply slice_in_bounds|]. split; [|reflexivity].
  unfold getMessageln. rewrite Sprintln_concat, drop_last_newline.
  rewrite length_append. simpl. lia.
Qed.

Lemma doPrint_strings b ss :
  Fmt.doPrint true b (map VString ss) = String.concat "" ss /\
  Fmt.doPrint false true (map VString ss) =
    fold_right String.append "" ss.
Proof.
  assert (H : forall a p, Fmt.doPrint a p (map VString ss) =
                          fold_right String.append "" ss).
  { induction ss as [|s ss IH]; intros a p; [reflexivity|].
    simpl. rewrite IH. now destruct a, p. }
  split; [|apply H].
  rewrite H. clear H. induction ss as [|s ss IH]; [reflexivity|].
  simpl fold_right. rewrite IH.
  destruct ss as [|s' ss]; [apply append_nil_r | reflexivity].
Qed.

(** X16. For string arguments the plain methods ([Debug] .. [Fatal])
    mirror the arguments run together without a separator, whereas the
    line methods mirror them joined by single spaces; for a single
    argument of any kind both give that argument's default text. *)
Theorem plain_and_line_messages ss v :
  getMessage "" (map VString ss) = String.concat "" ss /\
  getMessageln (map VString ss) = String.concat " " ss /\
  getMessage "" [v] = Fmt.formatV v /\
  getMessageln [v] = Fmt.formatV v.
Proof.
  split; [|split; [|split]].
  - destruct ss as [|s [|s' ss]]; try reflexivity.
    unfold getMessage. simpl length. simpl Nat.eqb. cbv iota.
    simpl (negb _). cbv iota.
    change (VString s :: map VString (s' :: ss))
      with (map VString (s :: s' :: ss)).
    replace (match map VString (s :: s' :: ss) with
             | [VString str] => str
             | _ => Fmt.Sprint (map VString (s :: s' :: ss))
             end) with (Fmt.Sprint (map VString (s :: s' :: ss)))
      by reflexivity.
    unfold Fmt.Sprint. apply (proj1 (doPrint_strings false _)).
  - unfold getMessageln. rewrite Sprintln_concat, drop_last_newline.
    rewrite map_map. simpl. now rewrite map_id.
  - destruct v as [s|n|b]; [reflexivity| |];
      change (getMessage "" [?x]) with (Fmt.formatV x ++ "");
      apply append_nil_r.
  - unfold getMessageln. rewrite Sprintln_concat.
    apply drop_last_byte_append.
Qed.

(** ** The facade *)

Lemma map_lookup_LevelMapping s :
  easylog.map_lookup pkg_option.LevelMapping s =
  if String.eqb "debug" s then Some DebugLevel
  else if String.eqb "info" s then Some InfoLevel
  else if String.eqb "warn" s then Some WarnLevel
  else if String.eqb "error" s then Some ErrorLevel
  else if String.eqb "panic" s then Some PanicLevel
  else if String.eqb "fatal" s then Some FatalLevel
  else None.
Proof. reflexivity. Qed.

(** X17. [ParseLevel] undoes [Level.String] on the six levels of
    [LevelMapping] (debug, info, warn, error, panic, fatal); the text of
    every other level, DPanic's "dpanic" included, parses to Info. *)
Theorem ParseLevel_of_Level_String l :
  easylog.ParseLevel (Level_String l) =
  if (l =? DebugLevel) || (l =? InfoLevel) || (l =? WarnLevel)
     || (l =? ErrorLevel) || (l =? PanicLevel) || (l =? FatalLevel)
  then l else InfoLevel.
Proof.
  unfold easylog.ParseLevel. rewrite map_lookup_LevelMapping.
  unfold Level_String.
  destruct (Z.eqb_spec l DebugLevel) as [->|]; [reflexivity|].
  destruct (Z.eqb_spec l InfoLevel) as [->|]; [reflexivity|].
  destruct (Z.eqb_spec l WarnLevel) as [->|]; [reflexivity|].
  destruct (Z.eqb_spec l ErrorLevel) as [->|]; [reflexivity|].
  destruct (Z.eqb_spec l DPanicLevel) as [->|]; [reflexivity|].
  destruct (Z.eqb_spec l PanicLevel) as [->|]; [reflexivity|].
  destruct (Z.eqb_spec l FatalLevel) as [->|]; [reflexivity|].
  reflexivity.
Qed.

(** X18. For every string, [ParseLevel] returns one of the six levels of
    [LevelMapping], and it returns Info unless the string is exactly
    "debug", "warn", "error", "panic" or "fatal". *)
Theorem ParseLevel_defaults_to_info s :
  In (easylog.ParseLevel s)
    [DebugLevel; InfoLevel; WarnLevel; ErrorLevel; PanicLevel; FatalLevel] /\
  (~ In s ["debug"; "warn"; "error"; "panic"; "fatal"] ->
   easylog.ParseLevel s = InfoLevel).
Proof.
  unfold easylog.ParseLevel. rewrite map_lookup_LevelMapping.
  destruct (String.eqb_spec "debug" s);
    [split; [simpl; tauto | intros H; exfalso; apply H; simpl; tauto]|].
  destruct (String.eqb_spec "info" s); [split; [simpl; tauto | reflexivity]|].
  destruct (String.eqb_spec "warn" s);
    [split; [simpl; tauto | intros H; exfalso; apply H; simpl; tauto]|].
  destruct (String.eqb_spec "error" s);
    [split; [simpl; tauto | intros H; exfalso; apply H; simpl; tauto]|].
  destruct (String.eqb_spec "panic" s);
    [split; [simpl; tauto | intros H; exfalso; apply H; simpl; tauto]|].
  destruct (String.eqb_spec "fatal" s);
    [split; [simpl; tauto | intros H; exfalso; apply H; simpl; tauto]|].
  split; [simpl; tauto | reflexivity].
Qed.

Lemma ParseLevel_defaults_to_info_witness :
  easylog.ParseLevel "DEBUG" = InfoLevel.
Proof.
  apply (proj2 (ParseLevel_defaults_to_info "DEBUG")).
  simpl. intros H. repeat (destruct H as [H|H]; [discriminate H|]).
  exact H.
Defined.

(** X19. [WithLogFilePath] with a non-empty path sets the path and puts
    the size at 100 MB, and it also overwrites the other file settings
    with the zero values of its struct: compression off, MaxBackups 0 and
    MaxAge 0, whatever they were before.  With the empty path it changes
    nothing. *)
Theorem WithLogFilePath_resets_file_settings path g :
  pkg_option.Apply (pkg_option.WithLogFilePath "") g = g /\
  (path <> "" ->
   pkg_option.Apply (pkg_option.WithLogFilePath path) g =
   pkg_option.mkGlobals path 100 false 0 0 (pkg_option.LogLevel g)
     (pkg_option.ConsoleRequired g) (pkg_option.CallerSkip g)).
Proof.
  split; [reflexivity|]. intros H.
  unfold pkg_option.WithLogFilePath, pkg_option.Apply.
  destruct (String.eqb_spec path ""); [contradiction | reflexivity].
Qed.

Lemma WithLogFilePath_resets_file_settings_witness :
  pkg_option.Apply (pkg_option.WithLogFilePath "/var/log/app.log")
    (pkg_option.Apply
       (pkg_option.WithLogFile "/tmp/a.log" 20 7 30 true)
       pkg_option.initial) =
  pkg_option.mkGlobals "/var/log/app.log" 100 false 0 0 "info" true 2.
Proof.
  apply (proj2 (WithLogFilePath_resets_file_settings "/var/log/app.log"
                  (pkg_option.Apply
                     (pkg_option.WithLogFile "/tmp/a.log" 20 7 30 true)
                     pkg_option.initial))).
  discriminate.
Defined.

Lemma Apply_keeps_invariants o g :
  (pkg_option.LogFileSizeMB g <> 0 ->
   pkg_option.LogFileSizeMB (pkg_option.Apply o g) <> 0) /\
  (pkg_option.LogFilePath g <> "" ->
   pkg_option.LogFilePath (pkg_option.Apply o g) <> "") /\
  (pkg_option.LogLevel g <> "" ->
   pkg_option.LogLevel (pkg_option.Apply o g) <> "").
Proof.
  destruct o as [path size compress mb ma|lvl|req|k]; simpl.
  - destruct (String.eqb_spec path ""); simpl; [tauto|].
    repeat split; intros; try assumption.
    destruct (Z.eqb_spec size 0); lia.
  - destruct (String.eqb_spec lvl ""); simpl; tauto.
  - tauto.
  - tauto.
Qed.

Lemma fold_Apply_keeps_invariants opts : forall g,
  let g' := fold_left (fun g o => pkg_option.Apply o g) opts g in
  (pkg_option.LogFileSizeMB g <> 0 -> pkg_option.LogFileSizeMB g' <> 0) /\
  (pkg_option.LogFilePath g <> "" -> pkg_option.LogFilePath g' <> "") /\
  (pkg_option.LogLevel g <> "" -> pkg_option.LogLevel g' <> "").
Proof.
  induction opts as [|o opts IH]; intros g; simpl; [tauto|].
  specialize (IH (pkg_option.Apply o g)). simpl in IH.
  pose proof (Apply_keeps_invariants o g). tauto.
Qed.

(** X20. No sequence of options can bring the package variables back to
    an unset state: once the file size is non-zero it stays non-zero,
    once a log file path is set it stays non-empty and once the level
    text is non-empty it stays non-empty, across any number of
    [initLogger] calls. *)
Theorem options_never_unset opts g :
  let g' := snd (easylog.initLogger opts g) in
  (pkg_option.LogFileSizeMB g <> 0 -> pkg_option.LogFileSizeMB g' <> 0) /\
  (pkg_option.LogFilePath g <> "" -> pkg_option.LogFilePath g' <> "") /\
  (pkg_option.LogLevel g <> "" -> pkg_option.LogLevel g' <> "").
Proof. simpl. apply fold_Apply_keeps_invariants. Qed.

Lemma options_never_unset_witness :
  pkg_option.LogFilePath
    (snd (easylog.initLogger
            [pkg_option.WithLogFilePath ""; pkg_option.logLevelOption "";
             pkg_option.WithLogFile "" 0 0 0 false]
            (pkg_option.mkGlobals "/var/log/app.log" 100 false 0 0 "warn"
               true 1))) <> "".
Proof.
  apply (proj1 (proj2 (options_never_unset
           [pkg_option.WithLogFilePath ""; pkg_option.logLevelOption "";
            pkg_option.WithLogFile "" 0 0 0 false]
           (pkg_option.mkGlobals "/var/log/app.log" 100 false 0 0 "warn"
              true 1)))).
  simpl. discriminate.
Defined.

(** X21. Starting from the initial package variables, whatever options
    are given, [initLogger] builds a core that always has a place to
    write to: the rotating file is among its syncers exactly when a log
    file path is set, standard output is among them exactly when the
    console is required or no path is set, and the core's level is
    [ParseLevel] of the level text.  In particular [WithConsole(false)]
    without a log file leaves standard output on. *)
Theorem initLogger_syncers options :
  let l := fst (easylog.initLogger options pkg_option.initial) in
  let g := snd (easylog.initLogger options pkg_option.initial) in
  let file :=
    easylog.fileSyncer (pkg_option.LogFilePath g) (pkg_option.LogFileSizeMB g)
      (pkg_option.MaxBackups g) (pkg_option.MaxAge g) (pkg_option.Compress g) in
  easylog.core_syncers (easylog.core l) =
    ((if pkg_option.ConsoleRequired g
         || String.eqb (pkg_option.LogFilePath g) ""
      then [easylog.consoleSyncer] else []) ++
     (if String.eqb (pkg_option.LogFilePath g) "" then [] else [file]))%list /\
  easylog.core_syncers (easylog.core l) <> [] /\
  easylog.core_level (easylog.core l) =
    easylog.ParseLevel (pkg_option.LogLevel g).
Proof.
  intros l g file.
  assert (Hsize : pkg_option.LogFileSizeMB g <> 0).
  { apply (proj1 (fold_Apply_keeps_invariants options pkg_option.initial)).
    simpl. lia. }
  assert (Hs : easylog.core_syncers (easylog.core l) =
    ((if pkg_option.ConsoleRequired g
         || String.eqb (pkg_option.LogFilePath g) ""
      then [easylog.consoleSyncer] else []) ++
     (if String.eqb (pkg_option.LogFilePath g) "" then [] else [file]))%list).
  { subst l file. unfold easylog.initLogger. simpl fst. simpl easylog.core.
    simpl easylog.core_syncers.
    change (fold_left (fun g o => pkg_option.Apply o g) options
              pkg_option.initial) with g.
    destruct (Z.eqb_spec (pkg_option.LogFileSizeMB g) 0); [contradiction|].
    destruct (String.eqb (pkg_option.LogFilePath g) "");
      destruct (pkg_option.ConsoleRequired g); reflexivity. }
  split; [exact Hs|]. split; [|reflexivity].
  rewrite Hs.
  destruct (String.eqb (pkg_option.LogFilePath g) "");
    destruct (pkg_option.ConsoleRequired g); discriminate.
Qed.

(** X22. The options live in package variables, so they outlast the
    call: building a logger from options [a] and then [b] is the same as
    building it from [a ++ b], and a later [initLogger] without options
    builds the same logger as the call before it. *)
Theorem initLogger_options_persist a b g :
  easylog.initLogger b (snd (easylog.initLogger a g)) =
    easylog.initLogger (a ++ b) g /\
  fst (easylog.initLogger [] (snd (easylog.initLogger a g))) =
    fst (easylog.initLogger a g).
Proof.
  split.
  - unfold easylog.initLogger. simpl snd. now rewrite fold_left_app.
  - reflexivity.
Qed.

(** X23. The facade builds its correlating loggers without options, so
    whatever facade options were given, [WithContext] on a valid context
    yields a decorator with the default config: only trace_id is added,
    events and error status start at Error, the stack depth is 8 and the
    extra skip is 0; the wrapped logger skips two callers.  The
    [CallerSkip] package variable set by [WithCallerSkip] is not used. *)
Theorem facade_WithContext_uses_defaults options g ctx :
  IsValid (SpanContextFromContext ctx) = true ->
  let l := fst (easylog.initLogger options g) in
  easylog.logger_WithContext l ctx =
    Some (LoggerStd_std
            (stdLogger.mk
               (mkZap [zap_String "trace_id"
                         (TraceID_String (SpanContextFromContext ctx))] 2)
               ctx ErrorLevel ErrorLevel 8 0)) /\
  zl_callerSkip (easylog.zlogger l) = 1.
Proof.
  intros H l. split; [|reflexivity].
  subst l. unfold easylog.initLogger, easylog.logger_WithContext.
  simpl easylog.otelLogger. unfold logger_WithContext.
  simpl logger.cfg. rewrite H. reflexivity.
Qed.

Lemma facade_WithContext_uses_defaults_witness :
  easylog.logger_WithContext
    (fst (easylog.initLogger [pkg_option.WithCallerSkip 5]
            pkg_option.initial)) demo_ctx =
  Some (LoggerStd_std
          (stdLogger.mk
             (mkZap [zap_String "trace_id"
                       "000000000000000000000000000000ff"] 2)
             demo_ctx ErrorLevel ErrorLevel 8 0)).
Proof.
  apply (facade_WithContext_uses_defaults [pkg_option.WithCallerSkip 5]
           pkg_option.initial demo_ctx).
  reflexivity.
Defined.

(** X24. [initLogger] never assigns the [level] field, and [With] and
    [Clone] copy it: on every logger built by [initLogger] and on every
    logger derived from one, [Level()] is the empty string and
    [IsDebug()] is false, also when the level option asks for debug and
    the core's level is Debug. *)
Theorem facade_level_is_never_set options g fields :
  let l := fst (easylog.initLogger options g) in
  easylog.logger_Level l = "" /\
  easylog.logger_IsDebug l = false /\
  easylog.logger_IsDebug (easylog.logger_With l fields) = false /\
  easylog.logger_IsDebug (easylog.logger_Clone l) = false /\
  easylog.core_level
    (easylog.core
       (fst (easylog.initLogger
               (options ++ [pkg_option.logLevelOption "debug"]) g))) =
    DebugLevel /\
  easylog.logger_IsDebug
    (fst (easylog.initLogger
            (options ++ [pkg_option.logLevelOption "debug"]) g)) = false.
Proof.
  intros l. repeat split; try reflexivity.
  unfold easylog.initLogger. simpl fst. simpl easylog.core.
  simpl easylog.core_level. now rewrite fold_left_app.
Qed.

(** X25. [Clone] copies the level, the zap logger and the sugared logger
    but not the two correlating loggers: [WithContext] on a clone fails
    on the nil interface for every context, and works again on a logger
    derived from the clone by [With]. *)
Theorem Clone_has_no_correlating_logger l ctx fields :
  easylog.logger_WithContext (easylog.logger_Clone l) ctx = None /\
  easylog.zlogger (easylog.logger_Clone l) = easylog.zlogger l /\
  easylog.sugaredLogger (easylog.logger_Clone l) = easylog.sugaredLogger l /\
  easylog.logger_Level (easylog.logger_Clone l) = easylog.logger_Level l /\
  easylog.logger_WithContext
    (easylog.logger_With (easylog.logger_Clone l) fields) ctx <> None.
Proof. repeat split; try reflexivity. discriminate. Qed.
